(** * ivybuildtools: the package metadata resolver

    A shallow embedding of [ivybuildtools/ivybuildtools.py] (class
    [IvyBuildTools]) and the properties of its operations.

    Python values are embedded as the inductive type [value]; a [str] is
    a Rocq [string] whose characters stand for code points below 256.
    The calls that leave the program ([toml.load], [open], [check_output],
    [find_packages]) are answered by an environment [Env]; every call that
    is made is recorded in an event log, and so is every printed line.
    Floats and dates, which TOML also has, are left out of [value].
    The [assert] statement is modelled as it runs without [-O]. *)

From Stdlib Require Import String Ascii List ZArith Bool Lia.
From Stdlib Require Import DecimalString.
Import ListNotations.

Set Warnings "-register-all".

Local Open Scope list_scope.
Local Open Scope string_scope.

(** ** Python values *)

Inductive value : Type :=
| VNone
| VBool (b : bool)
| VInt (n : Z)
| VStr (s : string)
| VList (l : list value)
| VDict (d : list (string * value)).

(** A [dict] keeps insertion order; its keys are strings here (TOML keys). *)
Definition dict : Type := list (string * value).

Fixpoint dict_get (d : dict) (key : string) : option value :=
  match d with
  | [] => None
  | (k, v) :: d' => if String.eqb k key then Some v else dict_get d' key
  end.

(** [bool(v)], the truth value the [if] statement tests. *)
Definition truthy (v : value) : bool :=
  match v with
  | VNone => false
  | VBool b => b
  | VInt n => negb (Z.eqb n 0)
  | VStr s => negb (String.eqb s "")
  | VList l => match l with [] => false | _ => true end
  | VDict d => match d with [] => false | _ => true end
  end.

(** ** Strings *)

Module Str.

(** [s[1:]] *)
Definition drop1 (s : string) : string :=
  match s with
  | EmptyString => EmptyString
  | String _ s' => s'
  end.

(** [sub in s] for two strings: [sub] occurs somewhere in [s]. *)
Fixpoint contains (sub s : string) : bool :=
  if String.prefix sub s then true
  else match s with
       | EmptyString => false
       | String _ s' => contains sub s'
       end.

(** [str.isspace] of one character, for the code points below 256. *)
Definition is_space (c : ascii) : bool :=
  let n := nat_of_ascii c in
  (((9 <=? n) && (n <=? 13)) || ((28 <=? n) && (n <=? 32))
   || (n =? 133) || (n =? 160))%nat.

Fixpoint lstrip (s : string) : string :=
  match s with
  | EmptyString => EmptyString
  | String c s' => if is_space c then lstrip s' else s
  end.

Fixpoint rstrip (s : string) : string :=
  match s with
  | EmptyString => EmptyString
  | String c s' =>
      match rstrip s' with
      | EmptyString => if is_space c then EmptyString else String c EmptyString
      | r => String c r
      end
  end.

(** [s.strip()] *)
Definition strip (s : string) : string := rstrip (lstrip s).

(** [s.split(sep)] for a separator of one character: the pieces between
    the separators, empty pieces kept; never the empty list. *)
Fixpoint split_on (sep : ascii) (s : string) : list string :=
  match s with
  | EmptyString => [EmptyString]
  | String c s' =>
      if Ascii.eqb c sep then EmptyString :: split_on sep s'
      else match split_on sep s' with
           | [] => [String c EmptyString]
           | p :: ps => String c p :: ps
           end
  end.

(** [s.split()]: the runs of characters that are not white space. *)
Fixpoint split_ws_aux (cur : string) (s : string) : list string :=
  match s with
  | EmptyString => match cur with EmptyString => [] | _ => [cur] end
  | String c s' =>
      if is_space c then
        match cur with
        | EmptyString => split_ws_aux EmptyString s'
        | _ => cur :: split_ws_aux EmptyString s'
        end
      else split_ws_aux (cur ++ String c EmptyString) s'
  end.

Definition split_ws (s : string) : list string := split_ws_aux EmptyString s.

(** [sep.join(l)] *)
Fixpoint join (sep : string) (l : list string) : string :=
  match l with
  | [] => EmptyString
  | [x] => x
  | x :: l' => x ++ sep ++ join sep l'
  end.

End Str.

(** ** [str] and [repr] of a value *)

Module Repr.

Definition of_Z (n : Z) : string := NilZero.string_of_int (Z.to_int n).

Definition hex_digit (n : nat) : ascii :=
  match n with
  | 0%nat => "0" | 1 => "1" | 2 => "2" | 3 => "3" | 4 => "4" | 5 => "5"
  | 6 => "6" | 7 => "7" | 8 => "8" | 9 => "9" | 10 => "a" | 11 => "b"
  | 12 => "c" | 13 => "d" | 14 => "e" | _ => "f"
  end%char.

(** Printable code points below 256, as [repr] decides what to escape. *)
Definition printable (c : ascii) : bool :=
  let n := nat_of_ascii c in
  (((32 <=? n) && (n <=? 126)) || ((161 <=? n) && negb (n =? 173)))%nat.

Definition escape_char (quote c : ascii) : string :=
  if Ascii.eqb c quote then String "\" (String c EmptyString)
  else if Ascii.eqb c "\" then "\\"
  else if Ascii.eqb c "009" then "\t"
  else if Ascii.eqb c "010" then "\n"
  else if Ascii.eqb c "013" then "\r"
  else if printable c then String c EmptyString
  else let n := nat_of_ascii c in
       String "\" (String "x" (String (hex_digit (n / 16))
                                 (String (hex_digit (n mod 16)) EmptyString))).

Fixpoint escape (quote : ascii) (s : string) : string :=
  match s with
  | EmptyString => EmptyString
  | String c s' => escape_char quote c ++ escape quote s'
  end.

(** The double quote character. *)
Definition dquote : ascii := ascii_of_nat 34.

(** [repr(s)]: single quotes, unless [s] has a single quote and no
    double quote. *)
Definition of_str (s : string) : string :=
  let quote : ascii :=
    if Str.contains "'" s && negb (Str.contains (String dquote EmptyString) s)
    then dquote else "'"%char in
  String quote (escape quote s ++ String quote EmptyString).

Fixpoint repr (v : value) : string :=
  match v with
  | VNone => "None"
  | VBool true => "True"
  | VBool false => "False"
  | VInt n => of_Z n
  | VStr s => of_str s
  | VList l => "[" ++ Str.join ", " (map repr l) ++ "]"
  | VDict d =>
      "{" ++ Str.join ", "
               (map (fun kv => of_str (fst kv) ++ ": " ++ repr (snd kv)) d)
          ++ "}"
  end.

(** [str(v)], which is also [format(v, "")] for these types. *)
Definition str (v : value) : string :=
  match v with
  | VStr s => s
  | _ => repr v
  end.

End Repr.

(** ** Exceptions *)

(** The exception classes that the program raises, catches or can meet
    from the calls it makes.  [Exception msg cause] is
    [raise Exception(msg) from cause]. *)
Inductive exn : Type :=
| Exception (msg : string) (cause : option exn)
| FileNotFoundError (msg : string) (cause : option exn)
| KeyError (key : string)
| IndexError
| TypeError
| ValueError
| AttributeError
| AssertionError (msg : string)
| CalledProcessError (returncode : Z)
| IsADirectoryError
| PermissionError
| UnicodeDecodeError
| RuntimeError (msg : string)
| KeyboardInterrupt.

(** The classes named in the [except] clauses of the program. *)
Inductive exn_class : Type :=
| ClsException
| ClsKeyError
| ClsFileNotFoundError
| ClsCalledProcessError.

(** [isinstance(e, cls)]: every class above derives from [Exception]
    but [KeyboardInterrupt]. *)
Definition isinstance (e : exn) (cls : exn_class) : bool :=
  match cls, e with
  | ClsException, KeyboardInterrupt => false
  | ClsException, _ => true
  | ClsKeyError, KeyError _ => true
  | ClsFileNotFoundError, FileNotFoundError _ _ => true
  | ClsCalledProcessError, CalledProcessError _ => true
  | _, _ => false
  end.

Inductive result (A : Type) : Type :=
| Return (a : A)
| Raise (e : exn).

Arguments Return {A} a.
Arguments Raise {A} e.

(** [v[key]] for a string key. *)
Definition subscript (v : value) (key : string) : result value :=
  match v with
  | VDict d =>
      match dict_get d key with
      | Some x => Return x
      | None => Raise (KeyError key)
      end
  | _ => Raise TypeError
  end.

(** [v.get(key)] *)
Definition py_get (v : value) (key : string) : result value :=
  match v with
  | VDict d =>
      match dict_get d key with
      | Some x => Return x
      | None => Return VNone
      end
  | _ => Raise AttributeError
  end.

(** [needle in v] for a string [needle]. *)
Definition py_in (needle : string) (v : value) : result bool :=
  match v with
  | VStr s => Return (Str.contains needle s)
  | VList l =>
      Return (existsb (fun x => match x with
                                | VStr s => String.eqb s needle
                                | _ => false
                                end) l)
  | VDict d =>
      Return (match dict_get d needle with Some _ => true | None => false end)
  | _ => Raise TypeError
  end.

(** ** Format strings *)

Module Format.

(** A format string as [str.format] reads it: literal text and
    replacement fields.  Conversions ([!r]), format specifications
    ([:>8]) and attribute or index access are not part of the templates
    treated here. *)
Inductive piece : Type :=
| Lit (s : string)
| Field (name : string).

Definition template : Type := list piece.

Inductive mode : Type := InText | AfterOpen | AfterClose | InField.

Definition lit (cur : string) (rest : template) : template :=
  match cur with
  | EmptyString => rest
  | _ => Lit cur :: rest
  end.

Definition special (c : ascii) : bool :=
  existsb (Ascii.eqb c) ["{"; "!"; ":"; "."; "["]%char.

Definition snoc (s : string) (c : ascii) : string := s ++ String c EmptyString.

Fixpoint parse_from (m : mode) (cur name : string) (s : string)
  : option template :=
  match s with
  | EmptyString =>
      match m with
      | InText => Some (lit cur [])
      | _ => None
      end
  | String c s' =>
      match m with
      | InText =>
          if Ascii.eqb c "{" then parse_from AfterOpen cur name s'
          else if Ascii.eqb c "}" then parse_from AfterClose cur name s'
          else parse_from InText (snoc cur c) name s'
      | AfterOpen =>
          if Ascii.eqb c "{" then parse_from InText (snoc cur c) name s'
          else if Ascii.eqb c "}" then
            option_map (fun t => lit cur (Field "" :: t))
                       (parse_from InText "" "" s')
          else if special c then None
          else parse_from InField cur (String c EmptyString) s'
      | AfterClose =>
          if Ascii.eqb c "}" then parse_from InText (snoc cur c) name s'
          else None
      | InField =>
          if Ascii.eqb c "}" then
            option_map (fun t => lit cur (Field name :: t))
                       (parse_from InText "" "" s')
          else if special c then None
          else parse_from InField cur (snoc name c) s'
      end
  end.

Definition parse (fmt : string) : option template :=
  parse_from InText "" "" fmt.

Definition is_digit (c : ascii) : bool :=
  let n := nat_of_ascii c in ((48 <=? n) && (n <=? 57))%nat.

Fixpoint all_digits (s : string) : bool :=
  match s with
  | EmptyString => true
  | String c s' => is_digit c && all_digits s'
  end.

(** The number an all-digit field name stands for. *)
Fixpoint index_from (acc : Z) (s : string) : Z :=
  match s with
  | EmptyString => acc
  | String c s' => index_from (10 * acc + (Z.of_nat (nat_of_ascii c) - 48)) s'
  end.

(** The largest index [str.format] reads ([PY_SSIZE_T_MAX], on a 64-bit
    build). *)
Definition max_index : Z := 2 ^ 63 - 1.

(** The value of one replacement field, with keyword arguments only: a
    positional field finds no argument, and an index too large to read
    is refused as [Too many decimal digits in format string]. *)
Definition field_value (kwargs : dict) (name : string) : result value :=
  if all_digits name then
    if Z.ltb max_index (index_from 0 name) then Raise ValueError
    else Raise IndexError
  else match dict_get kwargs name with
       | Some v => Return v
       | None => Raise (KeyError name)
       end.

(** [fmt.format] with the keyword arguments [kwargs], on the parsed
    template. *)
Fixpoint format (fmt : template) (kwargs : dict) : result string :=
  match fmt with
  | [] => Return ""
  | Lit s :: fmt' =>
      match format fmt' kwargs with
      | Return r => Return (s ++ r)
      | Raise e => Raise e
      end
  | Field name :: fmt' =>
      match field_value kwargs name with
      | Raise e => Raise e
      | Return v =>
          match format fmt' kwargs with
          | Return r => Return (Repr.str v ++ r)
          | Raise e => Raise e
          end
      end
  end.

End Format.

(** ** The environment and the effects *)

(** What the calls that leave the program answer.
    - [load_pipfile] is [toml.load(Pipfile.find())];
    - [open_read path] is [open(path, encoding="utf-8")] followed by
      [read()];
    - [check_output argv] is [check_output(argv).decode("utf-8")];
    - [find_packages exclude] is setuptools' [find_packages]. *)
Record Env : Type := {
  load_pipfile : result dict;
  open_read : string -> result string;
  check_output : list string -> result string;
  find_packages : list string -> list string
}.

(** What a run does to the world outside, in order. *)
Inductive event : Type :=
| EvLoadPipfile
| EvPrint (line : string)
| EvOpen (path : string)
| EvCheckOutput (argv : list string)
| EvFindPackages (exclude : list string).

(** The attributes of an instance, once [__init__] has returned. *)
Record IvyBuildTools : Type := {
  _pipfile : dict;
  _package_meta : value
}.

(** A computation on an instance: the instance it leaves, the events it
    caused, and the value it returns or the exception it raises. *)
Definition M (A : Type) : Type :=
  IvyBuildTools -> IvyBuildTools * list event * result A.

Definition ret {A : Type} (a : A) : M A :=
  fun self => (self, [], Return a).

Definition raise {A : Type} (e : exn) : M A :=
  fun self => (self, [], Raise e).

Definition bind {A B : Type} (m : M A) (k : A -> M B) : M B :=
  fun self =>
    match m self with
    | (self', log, Return a) =>
        match k a self' with
        | (self'', log', r) => (self'', (log ++ log')%list, r)
        end
    | (self', log, Raise e) => (self', log, Raise e)
    end.

Notation "x <- m ;; k" := (bind m (fun x => k))
  (at level 61, m at next level, right associativity).
Notation "m ;;; k" := (bind m (fun _ => k))
  (at level 61, right associativity).

Definition lift {A : Type} (r : result A) : M A :=
  fun self => (self, [], r).

Definition emit (ev : event) : M unit :=
  fun self => (self, [ev], Return tt).

Definition print (line : string) : M unit := emit (EvPrint line).

Definition get_pipfile : M dict :=
  fun self => (self, [], Return (_pipfile self)).

Definition get_package_meta : M value :=
  fun self => (self, [], Return (_package_meta self)).

(** [try: body except cls as e: handler e] *)
Definition try_except {A : Type} (body : M A) (cls : exn_class)
  (handler : exn -> M A) : M A :=
  fun self =>
    match body self with
    | (self', log, Raise e) =>
        if isinstance e cls then
          match handler e self' with
          | (self'', log', r) => (self'', (log ++ log')%list, r)
          end
        else (self', log, Raise e)
    | done => done
    end.

(** [assert cond, msg] *)
Definition assert_ (cond : bool) (msg : string) : M unit :=
  if cond then ret tt else raise (AssertionError msg).

Definition returned {A : Type} (x : IvyBuildTools * list event * result A)
  : result A := snd x.

Definition events {A : Type} (x : IvyBuildTools * list event * result A)
  : list event := snd (fst x).

Definition instance_after {A : Type}
  (x : IvyBuildTools * list event * result A) : IvyBuildTools := fst (fst x).

(** ** The class [IvyBuildTools] *)

Definition class_name : string := "IvyBuildTools".

Section Resolver.

Variable env : Env.

(** [IvyBuildTools()] *)
Definition init : list event * result IvyBuildTools :=
  let failure :=
    FileNotFoundError
      (class_name ++
       " requires a valid Pipfile to generate a setup.py. Cannot continue.") in
  match load_pipfile env with
  | Return pf =>
      match subscript (VDict pf) "package" with
      | Return meta =>
          ([EvLoadPipfile],
           Return {| _pipfile := pf; _package_meta := meta |})
      | Raise e =>
          ([EvLoadPipfile],
           if isinstance e ClsException then Raise (failure (Some e))
           else Raise e)
      end
  | Raise e =>
      ([EvLoadPipfile],
       if isinstance e ClsException then Raise (failure (Some e))
       else Raise e)
  end.

Definition _get_package_meta (key failure_msg default : string)
  (required : bool) : M value :=
  try_except
    (meta <- get_package_meta ;; lift (subscript meta key))
    ClsKeyError
    (fun e =>
       if required then raise (Exception failure_msg (Some e))
       else
         print ("[" ++ class_name ++ "] WARN: Unable to find [" ++ key ++
                "] in Pipfile package section. Continuing anyway " ++
                "with default [" ++ default ++ "].") ;;;
         ret (VStr default)).

Definition name : M value :=
  _get_package_meta "name"
    "No package name specified in Pipfile. Cannot continue." "" true.

Definition description : M value :=
  _get_package_meta "description"
    "No description specified in Pipfile. Cannot continue." "" true.

Definition author : M value :=
  _get_package_meta "author"
    "No author specified in Pipfile. Cannot continue." "" true.

Definition url : M value :=
  _get_package_meta "url"
    "No URL specified in Pipfile. Cannot continue." "" true.

Definition long_description : M value :=
  try_except
    (emit (EvOpen "README.md") ;;;
     text <- lift (open_read env "README.md") ;;
     ret (VStr text))
    ClsFileNotFoundError
    (fun _ =>
       print ("[" ++ class_name ++ "] WARN: Unable to find a README.md " ++
              "to use as package long description.") ;;;
       ret VNone).

(** [check_output(command.split()).decode("utf-8").strip()] *)
Definition run_command (command : string) : M string :=
  let argv := Str.split_ws command in
  emit (EvCheckOutput argv) ;;;
  out <- lift (check_output env argv) ;;
  ret (Str.strip out).

Definition gitver_command : string := "git describe --tags --long --dirty".
Definition gitbranch_command : string := "git rev-parse --abbrev-ref HEAD".

(** The default [fmt], the string ["{tag}{branchcommit}"] as parsed. *)
Definition default_fmt : Format.template :=
  [Format.Field "tag"; Format.Field "branchcommit"].

(** [generate_version(fmt)], for a format string given by its parse
    ([Format.parse]): literal text and plain replacement fields.  A
    format string with a conversion, a format specification, attribute
    or index access, or unbalanced braces has no parse, and what
    [generate_version] does with it is not described here. *)
Definition generate_version (fmt : Format.template) : M value :=
  version <-
    try_except (run_command gitver_command) ClsCalledProcessError
      (fun e => raise (Exception "No git tags found" (Some e))) ;;
  branch <-
    try_except (run_command gitbranch_command) ClsCalledProcessError
      (fun e => raise (Exception "Unable to find git branch name" (Some e))) ;;
  let parts := Str.split_on "-" version in
  assert_ (existsb (Nat.eqb (length parts)) [3; 4]%nat)
    "Cannot parse git tags" ;;;
  let dirty := Nat.eqb (length parts) 4 in
  match firstn 3 parts with
  | [tag; count; sha] =>
      let sha := Str.drop1 sha in
      let branchcommit :=
        if String.eqb branch "master" then ""
        else "-" ++ branch ++ "-" ++ sha in
      s <- lift (Format.format fmt
                   [("tag", VStr tag); ("count", VStr count);
                    ("sha", VStr sha); ("dirty", VBool dirty);
                    ("branch", VStr branch); ("version", VStr version);
                    ("branchcommit", VStr branchcommit)]) ;;
      ret (VStr s)
  | _ => raise ValueError
  end.

Definition version_failure_msg : string :=
  "Cannot generate package version from git tags. Add some tags or add " ++
  "version to Pipfile. Cannot continue.".

Definition version : M value :=
  meta <- get_package_meta ;;
  version_override <- lift (py_get meta "version") ;;
  if truthy version_override then ret version_override
  else
    try_except (generate_version default_fmt) ClsException
      (fun e => raise (Exception version_failure_msg (Some e))).

Definition python_requires : M value :=
  try_except
    (pf <- get_pipfile ;;
     requires <- lift (subscript (VDict pf) "requires") ;;
     python_version <- lift (subscript requires "python_version") ;;
     ret (VStr (">=" ++ Repr.str python_version ++ ", <4")))
    ClsKeyError
    (fun _ =>
       let default := ">=3.7, <4" in
       print ("[" ++ class_name ++ "] WARN: Unable to find required " ++
              "python version for this module, using default [" ++
              default ++ "].") ;;;
       ret VNone).

(** The loop body of [_generate_requires] for one item of the mapping. *)
Definition requirement (pkg : string) (ver : value) : result string :=
  match py_in "*" ver with
  | Raise e => Raise e
  | Return star =>
      let ver := if star then VStr "" else ver in
      Return (pkg ++ Repr.str ver)
  end.

Fixpoint requires_loop (items : dict) (requires : list string)
  : result (list string) :=
  match items with
  | [] => Return requires
  | (pkg, ver) :: items' =>
      match requirement pkg ver with
      | Raise e => Raise e
      | Return r => requires_loop items' (requires ++ [r])%list
      end
  end.

(** [v.items()] *)
Definition py_items (v : value) : result dict :=
  match v with
  | VDict d => Return d
  | _ => Raise AttributeError
  end.

Definition _generate_requires : M value :=
  pf <- get_pipfile ;;
  pipfile_reqs <- lift (subscript (VDict pf) "packages") ;;
  items <- lift (py_items pipfile_reqs) ;;
  requires <- lift (requires_loop items []) ;;
  ret (VList (map VStr requires)).

Definition install_requires : M value := _generate_requires.

Definition find_packages_exclude : list string :=
  ["contrib"; "docs"; "tests"; "test"].

Definition generate_setup : M value :=
  v_name <- name ;;
  v_version <- version ;;
  v_description <- description ;;
  v_long_description <- long_description ;;
  v_url <- url ;;
  v_author <- author ;;
  emit (EvFindPackages find_packages_exclude) ;;;
  let v_packages := VList (map VStr (find_packages env find_packages_exclude)) in
  v_python_requires <- python_requires ;;
  v_install_requires <- install_requires ;;
  ret (VDict
         [("name", v_name);
          ("version", v_version);
          ("description", v_description);
          ("long_description", v_long_description);
          ("long_description_content_type", VStr "text/markdown");
          ("url", v_url);
          ("author", v_author);
          ("packages", v_packages);
          ("python_requires", v_python_requires);
          ("install_requires", v_install_requires)]).

End Resolver.

(** The operations of a resolver: its properties and [generate_setup]. *)
Inductive operation : Type :=
| OpName
| OpDescription
| OpLongDescription
| OpVersion
| OpAuthor
| OpUrl
| OpPythonRequires
| OpInstallRequires
| OpGenerateSetup.

Definition run (env : Env) (op : operation) : M value :=
  match op with
  | OpName => name
  | OpDescription => description
  | OpLongDescription => long_description env
  | OpVersion => version env
  | OpAuthor => author
  | OpUrl => url
  | OpPythonRequires => python_requires
  | OpInstallRequires => install_requires
  | OpGenerateSetup => generate_setup env
  end.

(** What the two git commands are called with. *)
Definition gitver_argv : list string :=
  ["git"; "describe"; "--tags"; "--long"; "--dirty"].
Definition gitbranch_argv : list string :=
  ["git"; "rev-parse"; "--abbrev-ref"; "HEAD"].

(** Two environments that answer alike where the claimed inputs of the
    resolver are read: the README and the two git commands. *)
Definition same_readme_and_git (env env' : Env) : Prop :=
  open_read env "README.md" = open_read env' "README.md" /\
  check_output env gitver_argv = check_output env' gitver_argv /\
  check_output env gitbranch_argv = check_output env' gitbranch_argv.

(** ** The requirement of one dependency, as the specification words it

    The bare name for the wildcard constraint, the name followed by the
    constraint otherwise. *)
Definition requirement_as_specified (pkg constraint : string) : string :=
  if String.eqb constraint "*" then pkg else pkg ++ constraint.

(** ** Concrete environments and instances *)

Module Sample.

(** A working directory with no README and no Pipfile, where the two git
    commands answer [describe] and [branch]. *)
Definition git_env (describe branch : result string) : Env :=
  {| load_pipfile := Raise (RuntimeError "No Pipfile found!");
     open_read := fun _ => Raise (FileNotFoundError "README.md" None);
     check_output := fun argv =>
       if list_eq_dec string_dec argv gitver_argv then describe
       else if list_eq_dec string_dec argv gitbranch_argv then branch
       else Raise (FileNotFoundError "" None);
     find_packages := fun _ => [] |}.

(** No git repository: both commands exit with status 128. *)
Definition no_git : Env :=
  git_env (Raise (CalledProcessError 128)) (Raise (CalledProcessError 128)).

(** An instance made from a Pipfile (a dict with a [package] table). *)
Definition instance (pf : dict) (meta : dict) : IvyBuildTools :=
  {| _pipfile := pf; _package_meta := VDict meta |}.

Definition of_package (meta : dict) : IvyBuildTools :=
  instance [("package", VDict meta)] meta.

Definition pipfile_env (pf : dict) (readme : result string)
  (found : list string) : Env :=
  {| load_pipfile := Return pf;
     open_read := fun path =>
       if String.eqb path "README.md" then readme
       else Raise (FileNotFoundError path None);
     check_output := check_output no_git;
     find_packages := fun _ => found |}.

(** The manifest of a package with every required field, read in a
    directory with a README where [find_packages] finds [found]. *)
Definition full_pipfile : dict :=
  [("package",
    VDict [("name", VStr "ivybuildtools"); ("version", VStr "1.0.4");
           ("description", VStr "build helpers");
           ("url", VStr "https://example.org/ivybuildtools");
           ("author", VStr "ivy")]);
   ("packages", VDict [("toml", VStr "*"); ("pipfile", VStr ">=0.0.2")]);
   ("requires", VDict [("python_version", VStr "3.7")])].

Definition full_instance : IvyBuildTools :=
  {| _pipfile := full_pipfile;
     _package_meta :=
       match dict_get full_pipfile "package" with
       | Some meta => meta
       | None => VNone
       end |}.

Definition full_env (found : list string) : Env :=
  pipfile_env full_pipfile (Return "# ivybuildtools") found.

End Sample.

(** The keyword arguments [generate_version] formats with, from the
    stripped outputs of the two commands and the parts of the first. *)
Definition version_kwargs (version branch tag count sha : string)
  (dirty : bool) : dict :=
  [("tag", VStr tag); ("count", VStr count); ("sha", VStr (Str.drop1 sha));
   ("dirty", VBool dirty); ("branch", VStr branch); ("version", VStr version);
   ("branchcommit",
    VStr (if String.eqb branch "master" then ""
          else "-" ++ branch ++ "-" ++ Str.drop1 sha))].

(** The outcome of formatting, as the value [generate_version] returns. *)
Definition formatted (fmt : Format.template) (kwargs : dict) : result value :=
  match Format.format fmt kwargs with
  | Return s => Return (VStr s)
  | Raise e => Raise e
  end.

(** A [staticmethod] is the same computation on every instance, and
    leaves the instance as it was. *)
Definition static {A : Type} (m : M A) : Prop :=
  exists log r, forall self, m self = (self, log, r).

(** A computation that leaves every instance as it found it. *)
Definition readonly {A : Type} (m : M A) : Prop :=
  forall self, instance_after (m self) = self.

(** ** The tests of the repository ([tests/test_setup.py]) *)

Module Tests.

(** [a == b] against a string: equal only to that very string. *)
Definition eq_str (v : value) (s : string) : bool :=
  match v with
  | VStr s' => String.eqb s' s
  | _ => false
  end.

(** A bare [assert cond]. *)
Definition check (cond : bool) : result unit :=
  if cond then Return tt else Raise (AssertionError "").

(** [test_name]: the events of the run and how it ends. *)
Definition test_name (env : Env) : list event * result unit :=
  match init env with
  | (log, Raise e) => (log, Raise e)
  | (log, Return bt) =>
      match name bt with
      | (_, log', Raise e) => ((log ++ log')%list, Raise e)
      | (_, log', Return v) =>
          ((log ++ log')%list, check (eq_str v "ivybuildtools"))
      end
  end.

Definition gitver_test_command : string := "git describe --tags".

(** [test_version] *)
Definition test_version (env : Env) : list event * result unit :=
  let argv := Str.split_on " " gitver_test_command in
  match check_output env argv with
  | Raise e => ([EvCheckOutput argv], Raise e)
  | Return out =>
      let gitver := hd "" (Str.split_on "-" (Str.strip out)) in
      match init env with
      | (log, Raise e) => (EvCheckOutput argv :: log, Raise e)
      | (log, Return bt) =>
          match version env bt with
          | (_, log', Raise e) => (EvCheckOutput argv :: log ++ log', Raise e)%list
          | (_, log', Return v) =>
              match py_in gitver v with
              | Raise e => (EvCheckOutput argv :: log ++ log', Raise e)%list
              | Return found =>
                  (EvCheckOutput argv :: log ++ log', check found)%list
              end
          end
      end
  end.

End Tests.

(** A checkout of a package: the Pipfile [pf], a README, and git
    answering the short describe, the long describe and the branch. *)
Module Checkout.

Definition env (pf : dict) (short_out describe_out branch_out : string)
  (found : list string) : Env :=
  {| load_pipfile := Return pf;
     open_read := fun path =>
       if String.eqb path "README.md" then Return "# README"
       else Raise (FileNotFoundError path None);
     check_output := fun argv =>
       if list_eq_dec string_dec argv ["git"; "describe"; "--tags"]
       then Return short_out
       else if list_eq_dec string_dec argv gitver_argv then Return describe_out
       else if list_eq_dec string_dec argv gitbranch_argv then Return branch_out
       else Raise (CalledProcessError 1);
     find_packages := fun _ => found |}.

(** A Pipfile that pins no version. *)
Definition unpinned_package : dict :=
  [("name", VStr "ivybuildtools"); ("description", VStr "build helpers");
   ("url", VStr "https://example.org/ivybuildtools"); ("author", VStr "ivy")].

Definition unpinned_pipfile : dict :=
  [("package", VDict unpinned_package);
   ("packages", VDict [("toml", VStr "*"); ("pipfile", VStr ">=0.0.2")])].

Definition unpinned : IvyBuildTools :=
  {| _pipfile := unpinned_pipfile; _package_meta := VDict unpinned_package |}.

End Checkout.

(** ** Notions the statements use *)

(** The keys of the mapping [generate_setup] builds, in its order. *)
Definition setup_keys : list string :=
  ["name"; "version"; "description"; "long_description";
   "long_description_content_type"; "url"; "author"; "packages";
   "python_requires"; "install_requires"].

(** The names [generate_version] passes to [format]. *)
Definition version_fields : list string :=
  ["tag"; "count"; "sha"; "dirty"; "branch"; "version"; "branchcommit"].

(** Every replacement field of a template is one of [names]. *)
Definition fields_within (names : list string) (fmt : Format.template) : bool :=
  forallb (fun p => match p with
                    | Format.Lit _ => true
                    | Format.Field n => existsb (String.eqb n) names
                    end) fmt.

(** The character [c] does not occur in [s]. *)
Fixpoint lacks (c : ascii) (s : string) : bool :=
  match s with
  | EmptyString => true
  | String c' s' => negb (Ascii.eqb c' c) && lacks c s'
  end.

(** A value that [in] can search: a string, a list or a dict. *)
Definition is_container (v : value) : bool :=
  match v with
  | VStr _ | VList _ | VDict _ => true
  | _ => false
  end.

(** The mapping [generate_setup] builds from the values of the eight
    properties and the packages found. *)
Definition setup_mapping (v_name v_version v_description v_long_description
                          v_url v_author v_python_requires v_install_requires
                          : value) (found : list string) : value :=
  VDict [("name", v_name);
         ("version", v_version);
         ("description", v_description);
         ("long_description", v_long_description);
         ("long_description_content_type", VStr "text/markdown");
         ("url", v_url);
         ("author", v_author);
         ("packages", VList (map VStr found));
         ("python_requires", v_python_requires);
         ("install_requires", v_install_requires)].

(** What the resolver may do to the world outside: print, open
    [README.md], run one of the two git commands, discover packages. *)
Definition expected_event (ev : event) : Prop :=
  match ev with
  | EvPrint _ => True
  | EvOpen path => path = "README.md"
  | EvCheckOutput argv => argv = gitver_argv \/ argv = gitbranch_argv
  | EvFindPackages exclude => exclude = find_packages_exclude
  | EvLoadPipfile => False
  end.

(** No command is run. *)
Definition runs_no_command (ev : event) : Prop :=
  match ev with
  | EvCheckOutput _ => False
  | _ => True
  end.

(** Every event of a computation satisfies [P], on every instance. *)
Definition events_within {A : Type} (P : event -> Prop) (m : M A) : Prop :=
  forall self ev, In ev (events (m self)) -> P ev.

(** * Properties *)

(** ** The model reads the program's constants as the program does *)

Lemma gitver_command_split : Str.split_ws gitver_command = gitver_argv.
Proof. reflexivity. Qed.

Lemma gitbranch_command_split : Str.split_ws gitbranch_command = gitbranch_argv.
Proof. reflexivity. Qed.

Lemma default_fmt_parsed : Format.parse "{tag}{branchcommit}" = Some default_fmt.
Proof. reflexivity. Qed.

(** ** Metadata fields *)

Section MetaFields.

Variable self : IvyBuildTools.
Variable meta : dict.
Hypothesis package_is_table : _package_meta self = VDict meta.

Lemma get_package_meta_present key msg default required v :
  dict_get meta key = Some v ->
  _get_package_meta key msg default required self = (self, [], Return v).
Proof.
  intros Hk. unfold _get_package_meta, try_except, bind, get_package_meta, lift.
  rewrite package_is_table. simpl. rewrite Hk. reflexivity.
Qed.

Lemma get_package_meta_missing key msg default :
  dict_get meta key = None ->
  _get_package_meta key msg default true self
  = (self, [], Raise (Exception msg (Some (KeyError key)))).
Proof.
  intros Hk. unfold _get_package_meta, try_except, bind, get_package_meta, lift.
  rewrite package_is_table. simpl. rewrite Hk. reflexivity.
Qed.

End MetaFields.

(** ** Computations that do not look at the instance *)

Lemma static_ret {A : Type} (a : A) : static (ret a).
Proof. exists [], (Return a). reflexivity. Qed.

Lemma static_raise {A : Type} (e : exn) : static (@raise A e).
Proof. exists [], (Raise e). reflexivity. Qed.

Lemma static_lift {A : Type} (r : result A) : static (lift r).
Proof. exists [], r. reflexivity. Qed.

Lemma static_emit (ev : event) : static (emit ev).
Proof. exists [ev], (Return tt). reflexivity. Qed.

Lemma static_bind {A B : Type} (m : M A) (k : A -> M B) :
  static m -> (forall a, static (k a)) -> static (bind m k).
Proof.
  intros [log [r Hm]] Hk. destruct r as [a|e].
  - destruct (Hk a) as [log' [r' Hka]].
    exists (log ++ log')%list, r'. intros self.
    unfold bind. rewrite Hm, Hka. reflexivity.
  - exists log, (Raise e). intros self. unfold bind. rewrite Hm. reflexivity.
Qed.

Lemma static_try_except {A : Type} (m : M A) cls (h : exn -> M A) :
  static m -> (forall e, static (h e)) -> static (try_except m cls h).
Proof.
  intros [log [r Hm]] Hh. destruct r as [a|e].
  - exists log, (Return a). intros self. unfold try_except. rewrite Hm.
    reflexivity.
  - destruct (isinstance e cls) eqn:Hi.
    + destruct (Hh e) as [log' [r' He]].
      exists (log ++ log')%list, r'. intros self.
      unfold try_except. rewrite Hm, Hi, He. reflexivity.
    + exists log, (Raise e). intros self.
      unfold try_except. rewrite Hm, Hi. reflexivity.
Qed.

Lemma static_assert cond msg : static (assert_ cond msg).
Proof. unfold assert_. destruct cond; [apply static_ret | apply static_raise]. Qed.

Create HintDb static_db.
#[local] Hint Resolve static_ret static_raise static_lift static_emit
  static_assert : static_db.

Ltac static_step :=
  first [ apply static_bind; [|intros ?]
        | apply static_try_except; [|intros ?]
        | solve [auto with static_db] ].

Lemma static_run_command env command : static (run_command env command).
Proof. unfold run_command. repeat static_step. Qed.

Lemma static_generate_version env fmt : static (generate_version env fmt).
Proof.
  unfold generate_version.
  apply static_bind; [apply static_try_except;
                      [apply static_run_command | intros; apply static_raise]|].
  intros ver.
  apply static_bind; [apply static_try_except;
                      [apply static_run_command | intros; apply static_raise]|].
  intros branch.
  apply static_bind; [apply static_assert|]. intros _.
  destruct (firstn 3 (Str.split_on "-" ver)) as [|tag [|count [|sha [|x l]]]];
    repeat static_step.
Qed.

Lemma static_outcome {A : Type} (m : M A) (self self' : IvyBuildTools) :
  static m ->
  instance_after (m self) = self /\
  events (m self) = events (m self') /\
  returned (m self) = returned (m self').
Proof.
  intros [log [r Hm]]. rewrite (Hm self), (Hm self'). repeat split.
Qed.

(** The first event of a computation is the first event of its first
    step. *)
Lemma events_bind_first {A B : Type} (m : M A) (k : A -> M B) self ev l :
  events (m self) = ev :: l ->
  exists rest, events (bind m k self) = ev :: rest.
Proof.
  unfold events, bind. destruct (m self) as [[s log] r]. simpl.
  intros ->. destruct r as [a|e]; simpl.
  - destruct (k a s) as [[s' log'] r']. simpl. eexists; reflexivity.
  - eexists; reflexivity.
Qed.

Lemma events_try_first {A : Type} (m : M A) cls (h : exn -> M A) self ev l :
  events (m self) = ev :: l ->
  exists rest, events (try_except m cls h self) = ev :: rest.
Proof.
  unfold events, try_except. destruct (m self) as [[s log] r]. simpl.
  intros ->. destruct r as [a|e]; simpl.
  - eexists; reflexivity.
  - destruct (isinstance e cls); simpl.
    + destruct (h e s) as [[s' log'] r']. simpl. eexists; reflexivity.
    + eexists; reflexivity.
Qed.

Lemma run_command_events env command self :
  events (run_command env command self) = [EvCheckOutput (Str.split_ws command)].
Proof.
  unfold run_command, events, bind, emit, lift. simpl.
  destruct (check_output env (Str.split_ws command)); reflexivity.
Qed.

(** Version generation starts by running [git describe]. *)
Lemma generate_version_first_event env fmt self :
  exists rest,
    events (generate_version env fmt self) = EvCheckOutput gitver_argv :: rest.
Proof.
  unfold generate_version.
  destruct (events_try_first (run_command env gitver_command)
              ClsCalledProcessError
              (fun e => raise (Exception "No git tags found" (Some e)))
              self (EvCheckOutput gitver_argv) [])
    as [rest Hrest].
  { rewrite run_command_events, gitver_command_split. reflexivity. }
  eapply events_bind_first. exact Hrest.
Qed.

(** ** The version property *)

(** C1, as amended.  When the package section has a version value that
    is truthy (for a string: not empty), reading [version] returns that
    value as it is, in every environment, whatever the git commands
    would answer, and causes no event at all: no git command is run. *)
Theorem version_returns_truthy_override :
  forall (env : Env) (self : IvyBuildTools) (meta : dict) (v : value),
    _package_meta self = VDict meta ->
    dict_get meta "version" = Some v ->
    truthy v = true ->
    version env self = (self, [], Return v).
Proof.
  intros env self meta v Hmeta Hv Ht.
  unfold version, bind, get_package_meta, lift.
  rewrite Hmeta. simpl. rewrite Hv, Ht. reflexivity.
Qed.

Lemma version_returns_truthy_override_witness :
  version Sample.no_git (Sample.of_package [("version", VStr "1.0.4")])
  = (Sample.of_package [("version", VStr "1.0.4")], [], Return (VStr "1.0.4")).
Proof.
  apply (version_returns_truthy_override Sample.no_git
           (Sample.of_package [("version", VStr "1.0.4")])
           [("version", VStr "1.0.4")] (VStr "1.0.4"));
    reflexivity.
Defined.

(** C1 as stated fails: the package section has the explicit version
    value [""], and reading [version] does not return it; the git
    command is run and, with no repository, the read raises. *)
Lemma version_empty_override_not_returned :
  let self := Sample.of_package [("version", VStr "")] in
  py_get (_package_meta self) "version" = Return (VStr "") /\
  returned (version Sample.no_git self) <> Return (VStr "") /\
  events (version Sample.no_git self) = [EvCheckOutput gitver_argv].
Proof.
  repeat split. vm_compute. discriminate.
Qed.

(** C10.  When the package section has a version value that is falsy
    (the empty string, 0, false, an empty array or table), reading
    [version] takes the path of a manifest with no version at all: it is
    [generate_version] under the handler that wraps its exception, the
    first thing it does is run [git describe], and the outcome is the
    outcome of that algorithm, never the manifest's value. *)
Theorem version_falsy_override_generates :
  forall (env : Env) (self : IvyBuildTools) (meta : dict) (v : value),
    _package_meta self = VDict meta ->
    dict_get meta "version" = Some v ->
    truthy v = false ->
    version env self
    = try_except (generate_version env default_fmt) ClsException
        (fun e => raise (Exception version_failure_msg (Some e))) self
    /\ (exists rest,
          events (version env self) = EvCheckOutput gitver_argv :: rest)
    /\ (forall s, returned (generate_version env default_fmt self) = Return s ->
                  returned (version env self) = Return s)
    /\ (forall e, returned (generate_version env default_fmt self) = Raise e ->
                  returned (version env self) <> Return v)
    /\ (forall meta', dict_get meta' "version" = None ->
          let self' := {| _pipfile := _pipfile self;
                          _package_meta := VDict meta' |} in
          returned (version env self) = returned (version env self') /\
          events (version env self) = events (version env self')).
Proof.
  intros env self meta v Hmeta Hv Hf.
  assert (Hpath : version env self
    = try_except (generate_version env default_fmt) ClsException
        (fun e => raise (Exception version_failure_msg (Some e))) self).
  { unfold version, bind, get_package_meta, lift.
    rewrite Hmeta. simpl. rewrite Hv, Hf.
    destruct (try_except _ _ _ self) as [[s l] r]. reflexivity. }
  split; [exact Hpath|].
  split.
  { rewrite Hpath.
    destruct (generate_version_first_event env default_fmt self) as [rest Hr].
    eapply events_try_first. exact Hr. }
  split.
  { intros s Hs. rewrite Hpath. unfold try_except, returned in *.
    destruct (generate_version env default_fmt self) as [[s0 l] r].
    simpl in *. subst r. reflexivity. }
  split.
  { intros e He. rewrite Hpath. unfold try_except, returned in *.
    destruct (generate_version env default_fmt self) as [[s0 l] r].
    simpl in *. subst r.
    destruct e; simpl; discriminate. }
  intros meta' Hnone self'.
  assert (Hpath' : version env self'
    = try_except (generate_version env default_fmt) ClsException
        (fun e => raise (Exception version_failure_msg (Some e))) self').
  { unfold version, bind, get_package_meta, lift. simpl. rewrite Hnone. simpl.
    destruct (try_except _ _ _ self') as [[s l] r]. reflexivity. }
  rewrite Hpath, Hpath'.
  assert (Hst : static (try_except (generate_version env default_fmt)
                          ClsException
                          (fun e => @raise value
                                      (Exception version_failure_msg (Some e))))).
  { apply static_try_except; [apply static_generate_version|].
    intros; apply static_raise. }
  destruct (static_outcome _ self self' Hst) as [_ [He Hr]].
  split; [exact Hr | exact He].
Qed.

Lemma version_falsy_override_generates_witness :
  version Sample.no_git (Sample.of_package [("version", VStr "")])
  = try_except (generate_version Sample.no_git default_fmt) ClsException
      (fun e => raise (Exception version_failure_msg (Some e)))
      (Sample.of_package [("version", VStr "")]).
Proof.
  apply (version_falsy_override_generates Sample.no_git
           (Sample.of_package [("version", VStr "")])
           [("version", VStr "")] (VStr ""));
    reflexivity.
Defined.

(** ** Errors are per field *)

(** C7.  A resolver made from a manifest whose package section has no
    [name] but has a [description]: reading [name] raises the exception
    with the message that names the package name, caused by the
    [KeyError] of the key, and leaves the resolver as it was; reading
    [description] on that same resolver returns the description. *)
Theorem name_missing_description_present :
  forall (env : Env) (pf meta : dict) (d : value),
    load_pipfile env = Return pf ->
    dict_get pf "package" = Some (VDict meta) ->
    dict_get meta "name" = None ->
    dict_get meta "description" = Some d ->
    exists self,
      snd (init env) = Return self /\
      name self
      = (self, [],
         Raise (Exception "No package name specified in Pipfile. Cannot continue."
                  (Some (KeyError "name")))) /\
      description (instance_after (name self)) = (self, [], Return d).
Proof.
  intros env pf meta d Hload Hpkg Hname Hdesc.
  exists {| _pipfile := pf; _package_meta := VDict meta |}.
  split.
  { unfold init. rewrite Hload. simpl. rewrite Hpkg. reflexivity. }
  assert (Hn : name {| _pipfile := pf; _package_meta := VDict meta |}
               = ({| _pipfile := pf; _package_meta := VDict meta |}, [],
                  Raise (Exception
                           "No package name specified in Pipfile. Cannot continue."
                           (Some (KeyError "name"))))).
  { apply (get_package_meta_missing _ meta); [reflexivity | exact Hname]. }
  split; [exact Hn|].
  rewrite Hn. simpl.
  apply (get_package_meta_present _ meta); [reflexivity | exact Hdesc].
Qed.

Lemma name_missing_description_present_witness :
  exists self,
    snd (init (Sample.pipfile_env
                 [("package", VDict [("description", VStr "build helpers")])]
                 (Return "readme") [])) = Return self /\
    name self
    = (self, [],
       Raise (Exception "No package name specified in Pipfile. Cannot continue."
                (Some (KeyError "name")))) /\
    description (instance_after (name self))
    = (self, [], Return (VStr "build helpers")).
Proof.
  apply (name_missing_description_present
           (Sample.pipfile_env
              [("package", VDict [("description", VStr "build helpers")])]
              (Return "readme") [])
           [("package", VDict [("description", VStr "build helpers")])]
           [("description", VStr "build helpers")]
           (VStr "build helpers"));
    reflexivity.
Defined.

(** ** The Python version constraint *)

Lemma python_requires_present self requires python_version :
  dict_get (_pipfile self) "requires" = Some (VDict requires) ->
  dict_get requires "python_version" = Some (VStr python_version) ->
  python_requires self
  = (self, [], Return (VStr (">=" ++ python_version ++ ", <4"))).
Proof.
  intros Hr Hv. unfold python_requires, try_except, bind, get_pipfile, lift.
  simpl. rewrite Hr. simpl. rewrite Hv. reflexivity.
Qed.

Lemma python_requires_absent self :
  dict_get (_pipfile self) "requires" = None ->
  python_requires self
  = (self,
     [EvPrint ("[IvyBuildTools] WARN: Unable to find required python " ++
               "version for this module, using default [>=3.7, <4].")],
     Return VNone).
Proof.
  intros Hr. unfold python_requires, try_except, bind, get_pipfile, lift.
  simpl. rewrite Hr. reflexivity.
Qed.

(** C4 at a manifest with no [requires] section.  The warning is
    printed and it announces the default [>=3.7, <4], but what the
    property returns is [None], not that string. *)
Theorem python_requires_default_not_returned :
  let self := Sample.of_package [("name", VStr "ivybuildtools")] in
  python_requires self
  = (self,
     [EvPrint ("[IvyBuildTools] WARN: Unable to find required python " ++
               "version for this module, using default [>=3.7, <4].")],
     Return VNone)
  /\ returned (python_requires self) <> Return (VStr ">=3.7, <4").
Proof.
  split; [reflexivity | vm_compute; discriminate].
Qed.

(** ** Version generation *)

Section GenerateVersion.

Variable env : Env.
Variables describe_out branch_out : string.
Hypothesis describe_answers : check_output env gitver_argv = Return describe_out.
Hypothesis branch_answers : check_output env gitbranch_argv = Return branch_out.

Lemma generate_version_parse_failure fmt self :
  length (Str.split_on "-" (Str.strip describe_out)) <> 3%nat ->
  length (Str.split_on "-" (Str.strip describe_out)) <> 4%nat ->
  generate_version env fmt self
  = (self, [EvCheckOutput gitver_argv; EvCheckOutput gitbranch_argv],
     Raise (AssertionError "Cannot parse git tags")).
Proof.
  intros H3 H4.
  unfold generate_version, try_except, bind, run_command, emit, lift.
  rewrite gitver_command_split, gitbranch_command_split.
  rewrite describe_answers, branch_answers. simpl.
  apply Nat.eqb_neq in H3, H4. rewrite H3, H4. reflexivity.
Qed.

Lemma generate_version_three_parts fmt self tag count sha :
  Str.split_on "-" (Str.strip describe_out) = [tag; count; sha] ->
  generate_version env fmt self
  = (self, [EvCheckOutput gitver_argv; EvCheckOutput gitbranch_argv],
     formatted fmt (version_kwargs (Str.strip describe_out)
                      (Str.strip branch_out) tag count sha false)).
Proof.
  intros Hparts.
  unfold generate_version, try_except, bind, run_command, emit, lift.
  rewrite gitver_command_split, gitbranch_command_split.
  rewrite describe_answers, branch_answers. simpl.
  rewrite Hparts. simpl. unfold formatted, version_kwargs.
  destruct (Format.format fmt _); reflexivity.
Qed.

Lemma generate_version_four_parts fmt self tag count sha marker :
  Str.split_on "-" (Str.strip describe_out) = [tag; count; sha; marker] ->
  generate_version env fmt self
  = (self, [EvCheckOutput gitver_argv; EvCheckOutput gitbranch_argv],
     formatted fmt (version_kwargs (Str.strip describe_out)
                      (Str.strip branch_out) tag count sha true)).
Proof.
  intros Hparts.
  unfold generate_version, try_except, bind, run_command, emit, lift.
  rewrite gitver_command_split, gitbranch_command_split.
  rewrite describe_answers, branch_answers. simpl.
  rewrite Hparts. simpl. unfold formatted, version_kwargs.
  destruct (Format.format fmt _); reflexivity.
Qed.

End GenerateVersion.

(** C3.  The two git commands answer, and the stripped output of
    [git describe] splits on [-] into a number of parts that is neither
    3 nor 4.  Then [generate_version] raises the parse error, the
    [AssertionError] with the message [Cannot parse git tags], for every
    template; and reading [version] on a resolver whose manifest has no
    version override (none, or a falsy one) raises the exception with
    the version failure message whose cause is that parse error.  No
    string is returned. *)
Theorem version_unparseable_describe_raises :
  forall (env : Env) (self : IvyBuildTools) (meta : dict)
         (describe_out branch_out : string),
    _package_meta self = VDict meta ->
    (forall v, dict_get meta "version" = Some v -> truthy v = false) ->
    check_output env gitver_argv = Return describe_out ->
    check_output env gitbranch_argv = Return branch_out ->
    length (Str.split_on "-" (Str.strip describe_out)) <> 3%nat ->
    length (Str.split_on "-" (Str.strip describe_out)) <> 4%nat ->
    (forall fmt,
        returned (generate_version env fmt self)
        = Raise (AssertionError "Cannot parse git tags")) /\
    version env self
    = (self, [EvCheckOutput gitver_argv; EvCheckOutput gitbranch_argv],
       Raise (Exception version_failure_msg
                (Some (AssertionError "Cannot parse git tags")))).
Proof.
  intros env self meta describe_out branch_out Hmeta Hno Hd Hb H3 H4.
  split.
  - intros fmt.
    rewrite (generate_version_parse_failure env describe_out branch_out Hd Hb
               fmt self H3 H4).
    reflexivity.
  - unfold version, bind, get_package_meta, lift. rewrite Hmeta. simpl.
    assert (Hfalsy : truthy match dict_get meta "version" with
                            | Some x => x
                            | None => VNone
                            end = false).
    { destruct (dict_get meta "version") as [v|] eqn:Hv;
        [apply Hno; reflexivity | reflexivity]. }
    destruct (dict_get meta "version") as [v|]; simpl in *; rewrite ?Hfalsy;
      unfold try_except;
      rewrite (generate_version_parse_failure env describe_out branch_out
                 Hd Hb default_fmt self H3 H4);
      reflexivity.
Qed.

Lemma version_unparseable_describe_raises_witness :
  version (Sample.git_env (Return "v1.2.3-rc-1-2-gabcdef1") (Return "master"))
    (Sample.of_package [("name", VStr "ivybuildtools")])
  = (Sample.of_package [("name", VStr "ivybuildtools")],
     [EvCheckOutput gitver_argv; EvCheckOutput gitbranch_argv],
     Raise (Exception version_failure_msg
              (Some (AssertionError "Cannot parse git tags")))).
Proof.
  apply (version_unparseable_describe_raises
           (Sample.git_env (Return "v1.2.3-rc-1-2-gabcdef1") (Return "master"))
           (Sample.of_package [("name", VStr "ivybuildtools")])
           [("name", VStr "ivybuildtools")]
           "v1.2.3-rc-1-2-gabcdef1" "master");
    try reflexivity.
  - intros v Hv. vm_compute in Hv. discriminate.
  - vm_compute. discriminate.
  - vm_compute. discriminate.
Defined.

(** C5, as amended.  When [git describe] answers [v1.2.3-2-gabcdef1]
    and the branch is [feature-x], version generation with the default
    template returns [v1.2.3-feature-x-abcdef1]: the sha part is
    [gabcdef1] and dropping its first character leaves [abcdef1]. *)
Theorem generate_version_feature_branch :
  forall (env : Env) (self : IvyBuildTools) (describe_out branch_out : string),
    check_output env gitver_argv = Return describe_out ->
    check_output env gitbranch_argv = Return branch_out ->
    Str.strip describe_out = "v1.2.3-2-gabcdef1" ->
    Str.strip branch_out = "feature-x" ->
    generate_version env default_fmt self
    = (self, [EvCheckOutput gitver_argv; EvCheckOutput gitbranch_argv],
       Return (VStr "v1.2.3-feature-x-abcdef1")).
Proof.
  intros env self describe_out branch_out Hd Hb Hds Hbs.
  rewrite (generate_version_three_parts env describe_out branch_out Hd Hb
             default_fmt self "v1.2.3" "2" "gabcdef1").
  - rewrite Hbs. reflexivity.
  - rewrite Hds. reflexivity.
Qed.

Lemma generate_version_feature_branch_witness :
  generate_version
    (Sample.git_env (Return "v1.2.3-2-gabcdef1") (Return "feature-x"))
    default_fmt (Sample.of_package [])
  = (Sample.of_package [],
     [EvCheckOutput gitver_argv; EvCheckOutput gitbranch_argv],
     Return (VStr "v1.2.3-feature-x-abcdef1")).
Proof.
  apply (generate_version_feature_branch
           (Sample.git_env (Return "v1.2.3-2-gabcdef1") (Return "feature-x"))
           (Sample.of_package []) "v1.2.3-2-gabcdef1" "feature-x");
    reflexivity.
Defined.

(** C5 as stated fails: on that input the generated version is not
    [v1.2.3-feature-x-bcdef1]. *)
Lemma generate_version_feature_branch_not_bcdef1 :
  returned (generate_version
              (Sample.git_env (Return "v1.2.3-2-gabcdef1") (Return "feature-x"))
              default_fmt (Sample.of_package []))
  <> Return (VStr "v1.2.3-feature-x-bcdef1").
Proof.
  vm_compute. discriminate.
Qed.

(** C6.  When [git describe] answers [v1.2.3-0-gabcdef1] and the branch
    is [master], version generation with the default template returns
    the tag [v1.2.3], and the [branchcommit] field is the empty
    string. *)
Theorem generate_version_master :
  forall (env : Env) (self : IvyBuildTools) (describe_out branch_out : string),
    check_output env gitver_argv = Return describe_out ->
    check_output env gitbranch_argv = Return branch_out ->
    Str.strip describe_out = "v1.2.3-0-gabcdef1" ->
    Str.strip branch_out = "master" ->
    generate_version env default_fmt self
    = (self, [EvCheckOutput gitver_argv; EvCheckOutput gitbranch_argv],
       Return (VStr "v1.2.3")) /\
    returned (generate_version env [Format.Field "tag"] self)
    = Return (VStr "v1.2.3") /\
    returned (generate_version env [Format.Field "branchcommit"] self)
    = Return (VStr "").
Proof.
  intros env self describe_out branch_out Hd Hb Hds Hbs.
  repeat split;
    rewrite (generate_version_three_parts env describe_out branch_out Hd Hb
               _ self "v1.2.3" "0" "gabcdef1")
      by (rewrite Hds; reflexivity);
    rewrite Hbs; reflexivity.
Qed.

Lemma generate_version_master_witness :
  generate_version
    (Sample.git_env (Return "v1.2.3-0-gabcdef1") (Return "master"))
    default_fmt (Sample.of_package [])
  = (Sample.of_package [],
     [EvCheckOutput gitver_argv; EvCheckOutput gitbranch_argv],
     Return (VStr "v1.2.3")).
Proof.
  apply (generate_version_master
           (Sample.git_env (Return "v1.2.3-0-gabcdef1") (Return "master"))
           (Sample.of_package []) "v1.2.3-0-gabcdef1" "master");
    reflexivity.
Defined.

(** ** The long description *)

(** Any failure to open or decode the README that is not a
    [FileNotFoundError] leaves [long_description] as it came. *)
Lemma long_description_propagates env self e :
  open_read env "README.md" = Raise e ->
  isinstance e ClsFileNotFoundError = false ->
  long_description env self = (self, [EvOpen "README.md"], Raise e).
Proof.
  intros Ho Hi. unfold long_description, try_except, bind, emit, lift.
  simpl. rewrite Ho.
  destruct e; simpl in Hi; try discriminate Hi; reflexivity.
Qed.

(** C8, as amended.  Provided that opening and reading [README.md]
    either gives its text or fails with [FileNotFoundError], reading
    [long_description] does not raise: it returns the text when there is
    one, and otherwise prints the warning and returns [None]. *)
Theorem long_description_text_or_none :
  forall (env : Env) (self : IvyBuildTools),
    (forall e, open_read env "README.md" = Raise e ->
               isinstance e ClsFileNotFoundError = true) ->
    long_description env self
    = match open_read env "README.md" with
      | Return text => (self, [EvOpen "README.md"], Return (VStr text))
      | Raise _ =>
          (self,
           [EvOpen "README.md";
            EvPrint ("[IvyBuildTools] WARN: Unable to find a README.md to " ++
                     "use as package long description.")],
           Return VNone)
      end.
Proof.
  intros env self Hnf. unfold long_description, try_except, bind, emit, lift.
  simpl. destruct (open_read env "README.md") as [text|e] eqn:Ho; simpl.
  - reflexivity.
  - pose proof (Hnf e eq_refl) as Hi.
    destruct e; simpl in Hi; try discriminate Hi; reflexivity.
Qed.

Lemma long_description_text_or_none_witness :
  long_description
    (Sample.pipfile_env [] (Return "# ivybuildtools") [])
    (Sample.of_package [])
  = (Sample.of_package [], [EvOpen "README.md"],
     Return (VStr "# ivybuildtools")).
Proof.
  apply (long_description_text_or_none
           (Sample.pipfile_env [] (Return "# ivybuildtools") [])
           (Sample.of_package [])).
  intros e He. vm_compute in He. discriminate.
Defined.

(** C8 as stated fails: a [README.md] is there, its bytes are not
    UTF-8, and reading [long_description] raises. *)
Lemma long_description_raises_on_undecodable_readme :
  returned (long_description
              (Sample.pipfile_env [] (Raise UnicodeDecodeError) [])
              (Sample.of_package []))
  = Raise UnicodeDecodeError.
Proof. reflexivity. Qed.

(** ** The requirements *)

Lemma py_in_star_str s : py_in "*" (VStr s) = Return (Str.contains "*" s).
Proof. reflexivity. Qed.

Lemma requirement_of_string pkg constraint :
  requirement pkg (VStr constraint)
  = Return (if Str.contains "*" constraint then pkg else pkg ++ constraint).
Proof.
  unfold requirement. rewrite py_in_star_str.
  destruct (Str.contains "*" constraint); simpl; [|reflexivity].
  f_equal. induction pkg as [|c pkg IH]; simpl; [reflexivity|].
  f_equal. exact IH.
Qed.

Lemma requires_loop_strings (deps : list (string * string)) :
  forall acc,
    requires_loop (map (fun nc => (fst nc, VStr (snd nc))) deps) acc
    = Return (List.app acc
                (map (fun nc => if Str.contains "*" (snd nc) then fst nc
                                else fst nc ++ snd nc) deps)).
Proof.
  induction deps as [|[pkg constraint] deps IH]; intros acc;
    cbn [map requires_loop fst snd].
  - rewrite app_nil_r. reflexivity.
  - rewrite requirement_of_string, IH, <- app_assoc. reflexivity.
Qed.

(** When the packages section maps every name to a constraint string,
    [install_requires] is the list of the bare name or the name followed
    by the constraint, entry by entry. *)
Lemma install_requires_entries :
  forall (self : IvyBuildTools) (deps : list (string * string)),
    dict_get (_pipfile self) "packages"
    = Some (VDict (map (fun nc => (fst nc, VStr (snd nc))) deps)) ->
    install_requires self
    = (self, [],
       Return (VList (map (fun nc =>
                             VStr (if Str.contains "*" (snd nc) then fst nc
                                   else fst nc ++ snd nc)) deps))).
Proof.
  intros self deps Hp.
  unfold install_requires, _generate_requires, bind, get_pipfile, lift.
  simpl. rewrite Hp. simpl. rewrite requires_loop_strings. simpl.
  rewrite map_map. reflexivity.
Qed.

Lemma install_requires_entries_witness :
  install_requires
    (Sample.instance [("packages", VDict [("toml", VStr "*");
                                          ("pipfile", VStr ">=0.0.2")])] [])
  = (Sample.instance [("packages", VDict [("toml", VStr "*");
                                          ("pipfile", VStr ">=0.0.2")])] [],
     [], Return (VList [VStr "toml"; VStr "pipfile>=0.0.2"])).
Proof.
  apply (install_requires_entries
           (Sample.instance [("packages", VDict [("toml", VStr "*");
                                                 ("pipfile", VStr ">=0.0.2")])]
              [])
           [("toml", "*"); ("pipfile", ">=0.0.2")]).
  reflexivity.
Defined.

(** C2 as stated fails: the constraint [==2.*] is not the wildcard, and
    the element for it is the bare name, not the name followed by the
    constraint. *)
Lemma install_requires_drops_prefix_match :
  let self := Sample.instance [("packages", VDict [("django", VStr "==2.*")])] [] in
  returned (install_requires self) = Return (VList [VStr "django"]) /\
  requirement_as_specified "django" "==2.*" = "django==2.*" /\
  returned (install_requires self)
  <> Return (VList [VStr (requirement_as_specified "django" "==2.*")]).
Proof.
  repeat split. vm_compute. discriminate.
Qed.

(** ** The resolver reads and never writes *)

Lemma readonly_static {A : Type} (m : M A) : static m -> readonly m.
Proof. intros [log [r Hm]] self. rewrite Hm. reflexivity. Qed.

Lemma readonly_bind {A B : Type} (m : M A) (k : A -> M B) :
  readonly m -> (forall a, readonly (k a)) -> readonly (bind m k).
Proof.
  intros Hm Hk self. unfold bind, instance_after.
  specialize (Hm self). unfold instance_after in Hm.
  destruct (m self) as [[s log] r]. simpl in Hm. subst s.
  destruct r as [a|e]; [|reflexivity].
  specialize (Hk a self). unfold instance_after in Hk.
  destruct (k a self) as [[s' log'] r']. exact Hk.
Qed.

Lemma readonly_try_except {A : Type} (m : M A) cls (h : exn -> M A) :
  readonly m -> (forall e, readonly (h e)) -> readonly (try_except m cls h).
Proof.
  intros Hm Hh self. unfold try_except, instance_after.
  specialize (Hm self). unfold instance_after in Hm.
  destruct (m self) as [[s log] r]. simpl in Hm. subst s.
  destruct r as [a|e]; [reflexivity|].
  destruct (isinstance e cls); [|reflexivity].
  specialize (Hh e self). unfold instance_after in Hh.
  destruct (h e self) as [[s' log'] r']. exact Hh.
Qed.

Lemma readonly_get_pipfile : readonly get_pipfile.
Proof. intros self. reflexivity. Qed.

Lemma readonly_get_package_meta : readonly get_package_meta.
Proof. intros self. reflexivity. Qed.

Create HintDb readonly_db.
#[local] Hint Resolve readonly_get_pipfile readonly_get_package_meta
  : readonly_db.
#[local] Hint Extern 1 (readonly (ret _)) =>
  apply readonly_static, static_ret : readonly_db.
#[local] Hint Extern 1 (readonly (raise _)) =>
  apply readonly_static, static_raise : readonly_db.
#[local] Hint Extern 1 (readonly (lift _)) =>
  apply readonly_static, static_lift : readonly_db.
#[local] Hint Extern 1 (readonly (emit _)) =>
  apply readonly_static, static_emit : readonly_db.
#[local] Hint Extern 1 (readonly (print _)) =>
  apply readonly_static, static_emit : readonly_db.

Ltac readonly_step :=
  first [ apply readonly_bind; [|intros ?]
        | apply readonly_try_except; [|intros ?]
        | solve [auto with readonly_db] ].

Lemma readonly_get_package_meta_key key msg default required :
  readonly (_get_package_meta key msg default required).
Proof.
  unfold _get_package_meta. destruct required; repeat readonly_step.
Qed.

Lemma readonly_long_description env : readonly (long_description env).
Proof. unfold long_description. repeat readonly_step. Qed.

Lemma readonly_version env : readonly (version env).
Proof.
  unfold version. readonly_step; [auto with readonly_db|].
  readonly_step; [auto with readonly_db|].
  destruct (truthy _); [auto with readonly_db|].
  apply readonly_try_except.
  - apply readonly_static, static_generate_version.
  - intros e. auto with readonly_db.
Qed.

Lemma readonly_python_requires : readonly python_requires.
Proof. unfold python_requires. repeat readonly_step. Qed.

Lemma readonly_install_requires : readonly install_requires.
Proof. unfold install_requires, _generate_requires. repeat readonly_step. Qed.

Lemma readonly_generate_setup env : readonly (generate_setup env).
Proof.
  unfold generate_setup, name, description, url, author.
  repeat first
    [ apply readonly_get_package_meta_key
    | apply readonly_version
    | apply readonly_long_description
    | apply readonly_python_requires
    | apply readonly_install_requires
    | readonly_step ].
Qed.

Lemma readonly_run env op : readonly (run env op).
Proof.
  destruct op; simpl;
    first [ apply readonly_get_package_meta_key
          | apply readonly_long_description
          | apply readonly_version
          | apply readonly_python_requires
          | apply readonly_install_requires
          | apply readonly_generate_setup ].
Qed.

(** ** The resolver depends on the environment through what it reads *)

Lemma bind_ext {A B : Type} (m m' : M A) (k k' : A -> M B) self :
  (forall s, m s = m' s) ->
  (forall a s, k a s = k' a s) ->
  bind m k self = bind m' k' self.
Proof.
  intros Hm Hk. unfold bind. rewrite Hm.
  destruct (m' self) as [[s log] r]. destruct r as [a|e]; [|reflexivity].
  rewrite Hk. reflexivity.
Qed.

Lemma try_except_ext {A : Type} (m m' : M A) cls (h : exn -> M A) self :
  (forall s, m s = m' s) ->
  try_except m cls h self = try_except m' cls h self.
Proof. intros Hm. unfold try_except. rewrite Hm. reflexivity. Qed.

Section SameInputs.

Variables env env' : Env.
Hypothesis same : same_readme_and_git env env'.

Lemma long_description_same self :
  long_description env self = long_description env' self.
Proof.
  destruct same as [Hreadme _].
  unfold long_description, try_except, bind, emit, lift. simpl.
  rewrite Hreadme. reflexivity.
Qed.

Lemma run_command_same command self :
  command = gitver_command \/ command = gitbranch_command ->
  run_command env command self = run_command env' command self.
Proof.
  destruct same as [_ [Hver Hbranch]].
  intros [-> | ->]; unfold run_command, bind, emit, lift; simpl;
    [ rewrite gitver_command_split, Hver
    | rewrite gitbranch_command_split, Hbranch ]; reflexivity.
Qed.

Lemma generate_version_same fmt self :
  generate_version env fmt self = generate_version env' fmt self.
Proof.
  unfold generate_version.
  apply bind_ext.
  - intros s. apply try_except_ext. intros s'. apply run_command_same.
    left; reflexivity.
  - intros ver s. apply bind_ext; [|reflexivity].
    intros s'. apply try_except_ext. intros s''. apply run_command_same.
    right; reflexivity.
Qed.

Lemma version_same self : version env self = version env' self.
Proof.
  unfold version.
  apply bind_ext; [reflexivity|]. intros meta s.
  apply bind_ext; [reflexivity|]. intros v s'.
  destruct (truthy v); [reflexivity|].
  apply try_except_ext. intros s''. apply generate_version_same.
Qed.

Lemma generate_setup_same self :
  find_packages env find_packages_exclude
  = find_packages env' find_packages_exclude ->
  generate_setup env self = generate_setup env' self.
Proof.
  intros Hfound. unfold generate_setup.
  apply bind_ext; [reflexivity|]. intros v_name s1.
  apply bind_ext; [apply version_same|]. intros v_version s2.
  apply bind_ext; [reflexivity|]. intros v_description s3.
  apply bind_ext; [apply long_description_same|]. intros v_long s4.
  apply bind_ext; [reflexivity|]. intros v_url s5.
  apply bind_ext; [reflexivity|]. intros v_author s6.
  apply bind_ext; [reflexivity|]. intros _ s7.
  rewrite Hfound. reflexivity.
Qed.

End SameInputs.

(** C9, as amended.  Every operation of the resolver, each property and
    [generate_setup], leaves the instance, and so the loaded manifest,
    as it was; and what it returns, raises and prints is the same in two
    environments that answer alike for the README and for the two git
    commands, provided, for [generate_setup], that package discovery
    also finds the same packages in both. *)
Theorem operations_readonly_and_determined :
  forall (op : operation) (env env' : Env) (self : IvyBuildTools),
    same_readme_and_git env env' ->
    (op = OpGenerateSetup ->
     find_packages env find_packages_exclude
     = find_packages env' find_packages_exclude) ->
    instance_after (run env op self) = self /\
    run env op self = run env' op self.
Proof.
  intros op env env' self Hsame Hfound.
  split; [apply readonly_run|].
  destruct op; simpl; try reflexivity.
  - apply long_description_same; exact Hsame.
  - apply version_same; exact Hsame.
  - apply generate_setup_same; [exact Hsame | apply Hfound; reflexivity].
Qed.

Lemma operations_readonly_and_determined_witness :
  instance_after (run (Sample.full_env ["ivybuildtools"]) OpGenerateSetup
                    Sample.full_instance) = Sample.full_instance /\
  run (Sample.full_env ["ivybuildtools"]) OpGenerateSetup Sample.full_instance
  = run (Sample.full_env ["ivybuildtools"]) OpGenerateSetup Sample.full_instance.
Proof.
  apply (operations_readonly_and_determined OpGenerateSetup
           (Sample.full_env ["ivybuildtools"])
           (Sample.full_env ["ivybuildtools"]) Sample.full_instance).
  - repeat split.
  - intros _. reflexivity.
Defined.

(** C9 as stated fails for [generate_setup]: the same manifest, the
    same README and the same answers of git, in two directories where
    package discovery finds different packages, give two different
    mappings. *)
Lemma generate_setup_depends_on_found_packages :
  let env1 := Sample.full_env ["ivybuildtools"] in
  let env2 := Sample.full_env [] in
  load_pipfile env1 = load_pipfile env2 /\
  (forall path, open_read env1 path = open_read env2 path) /\
  (forall argv, check_output env1 argv = check_output env2 argv) /\
  same_readme_and_git env1 env2 /\
  (exists setup, returned (generate_setup env1 Sample.full_instance)
                 = Return setup) /\
  returned (generate_setup env1 Sample.full_instance)
  <> returned (generate_setup env2 Sample.full_instance).
Proof.
  simpl. repeat split.
  - eexists. vm_compute. reflexivity.
  - vm_compute. discriminate.
Qed.

(** * Further properties of the code *)

(** ** Construction *)

(** Construction returns an instance exactly when the Pipfile loads and
    has a [package] entry; the instance then holds the loaded mapping
    and that entry. *)
Theorem init_returns_iff :
  forall (env : Env) (self : IvyBuildTools),
    snd (init env) = Return self <->
    load_pipfile env = Return (_pipfile self) /\
    dict_get (_pipfile self) "package" = Some (_package_meta self).
Proof.
  intros env [pf meta]. unfold init. simpl. split.
  - destruct (load_pipfile env) as [pf'|e]; simpl.
    + destruct (dict_get pf' "package") as [meta'|] eqn:Hpkg; simpl.
      * intros H. injection H as -> ->. split; [reflexivity | exact Hpkg].
      * discriminate.
    + destruct e; simpl; discriminate.
  - intros [-> ->]. reflexivity.
Qed.

Lemma init_returns_iff_witness :
  snd (init (Sample.full_env [])) = Return Sample.full_instance.
Proof.
  apply (init_returns_iff (Sample.full_env []) Sample.full_instance).
  split; reflexivity.
Defined.

(** When construction fails, it is with [FileNotFoundError] and the
    fixed message, caused by the error of the load or by the [KeyError]
    of the missing [package] key; only an interrupt passes as it is.
    The Pipfile is loaded once and nothing else is done. *)
Theorem init_failure_is_wrapped :
  forall (env : Env) (e : exn),
    snd (init env) = Raise e ->
    fst (init env) = [EvLoadPipfile] /\
    (e = KeyboardInterrupt \/
     exists cause,
       e = FileNotFoundError
             ("IvyBuildTools requires a valid Pipfile to generate a " ++
              "setup.py. Cannot continue.") (Some cause) /\
       (load_pipfile env = Raise cause \/
        cause = KeyError "package" /\
        exists pf, load_pipfile env = Return pf /\
                   dict_get pf "package" = None)).
Proof.
  intros env e. unfold init.
  destruct (load_pipfile env) as [pf|e0]; simpl.
  - destruct (dict_get pf "package") as [meta|] eqn:Hpkg; simpl.
    + discriminate.
    + intros H. injection H as <-. split; [reflexivity|]. right.
      exists (KeyError "package"). split; [reflexivity|].
      right. split; [reflexivity|]. exists pf. split; [reflexivity | exact Hpkg].
  - intros H. split; [reflexivity|].
    destruct e0; simpl in H; injection H as <-;
      first [ left; reflexivity
            | right; eexists; split; [reflexivity | left; reflexivity] ].
Qed.

Lemma init_failure_is_wrapped_witness :
  fst (init Sample.no_git) = [EvLoadPipfile] /\
  (FileNotFoundError
     ("IvyBuildTools requires a valid Pipfile to generate a " ++
      "setup.py. Cannot continue.")
     (Some (RuntimeError "No Pipfile found!")) = KeyboardInterrupt \/
   exists cause,
     FileNotFoundError
       ("IvyBuildTools requires a valid Pipfile to generate a " ++
        "setup.py. Cannot continue.")
       (Some (RuntimeError "No Pipfile found!"))
     = FileNotFoundError
         ("IvyBuildTools requires a valid Pipfile to generate a " ++
          "setup.py. Cannot continue.") (Some cause) /\
     (load_pipfile Sample.no_git = Raise cause \/
      cause = KeyError "package" /\
      exists pf, load_pipfile Sample.no_git = Return pf /\
                 dict_get pf "package" = None)).
Proof.
  apply (init_failure_is_wrapped Sample.no_git). reflexivity.
Defined.

(** ** Metadata fields *)

(** With a [package] table, each of [name], [description], [author] and
    [url] raises exactly when its key is missing from the table, and
    otherwise returns what the table holds under the key, of whatever
    type; none of them causes an event. *)
Theorem required_field_raises_iff_missing :
  forall (env : Env) (self : IvyBuildTools) (meta : dict)
         (op : operation) (key : string),
    _package_meta self = VDict meta ->
    In (op, key) [(OpName, "name"); (OpDescription, "description");
                  (OpAuthor, "author"); (OpUrl, "url")] ->
    events (run env op self) = [] /\
    ((exists e, returned (run env op self) = Raise e) <->
     dict_get meta key = None) /\
    (forall v, returned (run env op self) = Return v <->
               dict_get meta key = Some v).
Proof.
  intros env self meta op key Hmeta Hin.
  assert (Hcases :
    forall msg,
      run env op self = _get_package_meta key msg "" true self ->
      events (run env op self) = [] /\
      ((exists e, returned (run env op self) = Raise e) <->
       dict_get meta key = None) /\
      (forall v, returned (run env op self) = Return v <->
                 dict_get meta key = Some v)).
  { intros msg ->.
    destruct (dict_get meta key) as [x|] eqn:Hk.
    - rewrite (get_package_meta_present self meta Hmeta key msg "" true x Hk).
      unfold events, returned. simpl. split; [reflexivity|]. split.
      + split; [intros [e He]; discriminate | discriminate].
      + intros v. split; intros H; injection H as ->; reflexivity.
    - rewrite (get_package_meta_missing self meta Hmeta key msg "" Hk).
      unfold events, returned. simpl. split; [reflexivity|]. split.
      + split; [reflexivity | intros _; eexists; reflexivity].
      + intros v. split; discriminate. }
  simpl in Hin.
  destruct Hin as [H|[H|[H|[H|[]]]]]; injection H as <- <-;
    eapply Hcases; reflexivity.
Qed.

Lemma required_field_raises_iff_missing_witness :
  events (run Sample.no_git OpAuthor Sample.full_instance) = [] /\
  ((exists e, returned (run Sample.no_git OpAuthor Sample.full_instance)
              = Raise e) <->
   dict_get [("name", VStr "ivybuildtools"); ("version", VStr "1.0.4");
             ("description", VStr "build helpers");
             ("url", VStr "https://example.org/ivybuildtools");
             ("author", VStr "ivy")] "author" = None) /\
  (forall v, returned (run Sample.no_git OpAuthor Sample.full_instance)
             = Return v <->
             dict_get [("name", VStr "ivybuildtools"); ("version", VStr "1.0.4");
                       ("description", VStr "build helpers");
                       ("url", VStr "https://example.org/ivybuildtools");
                       ("author", VStr "ivy")] "author" = Some v).
Proof.
  apply (required_field_raises_iff_missing Sample.no_git Sample.full_instance
           [("name", VStr "ivybuildtools"); ("version", VStr "1.0.4");
            ("description", VStr "build helpers");
            ("url", VStr "https://example.org/ivybuildtools");
            ("author", VStr "ivy")] OpAuthor "author").
  - reflexivity.
  - simpl. right. right. left. reflexivity.
Defined.

(** A Pipfile whose [package] entry is not a table still constructs.
    On such an instance the four metadata fields raise [TypeError] and
    [version] raises [AttributeError], with none of the messages of the
    resolver and without running git. *)
Theorem package_not_a_table :
  forall (env : Env) (pf : dict) (meta : value) (op : operation),
    load_pipfile env = Return pf ->
    dict_get pf "package" = Some meta ->
    (forall d, meta <> VDict d) ->
    In op [OpName; OpDescription; OpAuthor; OpUrl; OpVersion] ->
    exists self,
      snd (init env) = Return self /\
      run env op self
      = (self, [],
         Raise (match op with OpVersion => AttributeError | _ => TypeError end)).
Proof.
  intros env pf meta op Hload Hpkg Hnot Hin.
  exists {| _pipfile := pf; _package_meta := meta |}. split.
  { unfold init. rewrite Hload. simpl. rewrite Hpkg. reflexivity. }
  simpl in Hin.
  destruct meta as [| b | n | s | l | d];
    try (exfalso; apply (Hnot d); reflexivity);
    destruct Hin as [<-|[<-|[<-|[<-|[<-|[]]]]]]; reflexivity.
Qed.

Lemma package_not_a_table_witness :
  exists self,
    snd (init (Sample.pipfile_env [("package", VStr "ivybuildtools")]
                 (Return "") [])) = Return self /\
    run (Sample.pipfile_env [("package", VStr "ivybuildtools")] (Return "") [])
      OpVersion self
    = (self, [], Raise AttributeError).
Proof.
  apply (package_not_a_table
           (Sample.pipfile_env [("package", VStr "ivybuildtools")] (Return "") [])
           [("package", VStr "ivybuildtools")] (VStr "ivybuildtools") OpVersion).
  - reflexivity.
  - reflexivity.
  - intros d H. discriminate H.
  - simpl. right. right. right. right. left. reflexivity.
Defined.

(** With the key not required, [_get_package_meta] on a [package] table
    does not raise: it returns the stored value without an event, or,
    the key missing, prints one warning that names the key and the
    default, and returns the default. *)
Theorem optional_field_defaults :
  forall (self : IvyBuildTools) (meta : dict)
         (key failure_msg default : string),
    _package_meta self = VDict meta ->
    _get_package_meta key failure_msg default false self
    = match dict_get meta key with
      | Some v => (self, [], Return v)
      | None =>
          (self,
           [EvPrint ("[IvyBuildTools] WARN: Unable to find [" ++ key ++
                     "] in Pipfile package section. Continuing anyway " ++
                     "with default [" ++ default ++ "].")],
           Return (VStr default))
      end.
Proof.
  intros self meta key failure_msg default Hmeta.
  unfold _get_package_meta, try_except, bind, get_package_meta, lift.
  rewrite Hmeta. simpl. destruct (dict_get meta key); reflexivity.
Qed.

Lemma optional_field_defaults_witness :
  _get_package_meta "license" "No license." "MIT" false Sample.full_instance
  = (Sample.full_instance,
     [EvPrint ("[IvyBuildTools] WARN: Unable to find [license] in Pipfile " ++
               "package section. Continuing anyway with default [MIT].")],
     Return (VStr "MIT")).
Proof.
  apply (optional_field_defaults Sample.full_instance
           [("name", VStr "ivybuildtools"); ("version", VStr "1.0.4");
            ("description", VStr "build helpers");
            ("url", VStr "https://example.org/ivybuildtools");
            ("author", VStr "ivy")]
           "license" "No license." "MIT").
  reflexivity.
Defined.

(** ** Splitting and searching strings *)

Lemma string_app_nil_r (s : string) : s ++ "" = s.
Proof. induction s as [|c s IH]; simpl; [reflexivity | rewrite IH; reflexivity]. Qed.

Lemma string_app_assoc (a b c : string) : (a ++ b) ++ c = a ++ b ++ c.
Proof. induction a as [|x a IH]; simpl; [reflexivity | rewrite IH; reflexivity]. Qed.

Lemma split_on_nonempty sep s : Str.split_on sep s <> [].
Proof.
  destruct s as [|c s]; simpl; [discriminate|].
  destruct (Ascii.eqb c sep); [discriminate|].
  destruct (Str.split_on sep s); discriminate.
Qed.

(** A string without the separator is its own single piece. *)
Lemma split_on_lacks sep s : lacks sep s = true -> Str.split_on sep s = [s].
Proof.
  induction s as [|c s IH]; simpl; [reflexivity|].
  intros H. apply andb_true_iff in H. destruct H as [Hc Hs].
  apply negb_true_iff in Hc. rewrite Hc, (IH Hs). reflexivity.
Qed.

(** The first piece ends at the first separator. *)
Lemma split_on_app sep a b :
  lacks sep a = true ->
  Str.split_on sep (a ++ String sep b) = a :: Str.split_on sep b.
Proof.
  induction a as [|c a IH]; simpl.
  - intros _. rewrite Ascii.eqb_refl. reflexivity.
  - intros H. apply andb_true_iff in H. destruct H as [Hc Ha].
    apply negb_true_iff in Hc. rewrite Hc, (IH Ha). reflexivity.
Qed.

Lemma prefix_app (a b : string) : String.prefix a (a ++ b) = true.
Proof.
  induction a as [|c a IH]; simpl; [destruct b; reflexivity|].
  destruct (ascii_dec c c) as [_|Hne]; [exact IH | contradiction].
Qed.

Lemma contains_of_prefix (a s : string) :
  String.prefix a s = true -> Str.contains a s = true.
Proof. intros H. destruct s; simpl in *; rewrite H; reflexivity. Qed.

(** ** Version generation: the failures of git *)

(** When [git describe] exits with an error status, version generation
    raises [No git tags found] caused by that error, and the branch
    command is not run. *)
Theorem generate_version_no_tags :
  forall (env : Env) (fmt : Format.template) (self : IvyBuildTools)
         (code : Z),
    check_output env gitver_argv = Raise (CalledProcessError code) ->
    generate_version env fmt self
    = (self, [EvCheckOutput gitver_argv],
       Raise (Exception "No git tags found"
                (Some (CalledProcessError code)))).
Proof.
  intros env fmt self code Hd.
  unfold generate_version, try_except, bind, run_command, emit, lift.
  rewrite gitver_command_split, Hd. reflexivity.
Qed.

Lemma generate_version_no_tags_witness :
  generate_version Sample.no_git default_fmt (Sample.of_package [])
  = (Sample.of_package [], [EvCheckOutput gitver_argv],
     Raise (Exception "No git tags found" (Some (CalledProcessError 128)))).
Proof.
  apply (generate_version_no_tags Sample.no_git default_fmt
           (Sample.of_package []) 128).
  reflexivity.
Defined.

(** When the branch command exits with an error status, version
    generation raises [Unable to find git branch name] caused by that
    error, whatever [git describe] printed: the output of [git describe]
    is not looked at before the branch is known. *)
Theorem generate_version_no_branch :
  forall (env : Env) (fmt : Format.template) (self : IvyBuildTools)
         (describe_out : string) (code : Z),
    check_output env gitver_argv = Return describe_out ->
    check_output env gitbranch_argv = Raise (CalledProcessError code) ->
    generate_version env fmt self
    = (self, [EvCheckOutput gitver_argv; EvCheckOutput gitbranch_argv],
       Raise (Exception "Unable to find git branch name"
                (Some (CalledProcessError code)))).
Proof.
  intros env fmt self describe_out code Hd Hb.
  unfold generate_version, try_except, bind, run_command, emit, lift.
  rewrite gitver_command_split, gitbranch_command_split, Hd, Hb. reflexivity.
Qed.

Lemma generate_version_no_branch_witness :
  generate_version
    (Sample.git_env (Return "not a describe output")
       (Raise (CalledProcessError 128)))
    default_fmt (Sample.of_package [])
  = (Sample.of_package [],
     [EvCheckOutput gitver_argv; EvCheckOutput gitbranch_argv],
     Raise (Exception "Unable to find git branch name"
              (Some (CalledProcessError 128)))).
Proof.
  apply (generate_version_no_branch
           (Sample.git_env (Return "not a describe output")
              (Raise (CalledProcessError 128)))
           default_fmt (Sample.of_package []) "not a describe output" 128);
    reflexivity.
Defined.

(** A failure of a git command that is not an error status (git is not
    installed, the output is not UTF-8) leaves [generate_version] as it
    came, with no message of the resolver. *)
Theorem generate_version_other_failure :
  forall (env : Env) (fmt : Format.template) (self : IvyBuildTools) (e : exn),
    check_output env gitver_argv = Raise e ->
    isinstance e ClsCalledProcessError = false ->
    generate_version env fmt self
    = (self, [EvCheckOutput gitver_argv], Raise e).
Proof.
  intros env fmt self e Hd Hi.
  unfold generate_version, try_except, bind, run_command, emit, lift.
  rewrite gitver_command_split, Hd.
  destruct e; simpl in Hi; try discriminate Hi; reflexivity.
Qed.

Lemma generate_version_other_failure_witness :
  generate_version
    (Sample.git_env (Raise (FileNotFoundError "git" None)) (Return "master"))
    default_fmt (Sample.of_package [])
  = (Sample.of_package [], [EvCheckOutput gitver_argv],
     Raise (FileNotFoundError "git" None)).
Proof.
  apply (generate_version_other_failure
           (Sample.git_env (Raise (FileNotFoundError "git" None))
              (Return "master"))
           default_fmt (Sample.of_package []) (FileNotFoundError "git" None));
    reflexivity.
Defined.

(** ** Version generation: the default template *)

Lemma format_default_fmt version branch tag count sha dirty :
  formatted default_fmt (version_kwargs version branch tag count sha dirty)
  = Return (VStr (if String.eqb branch "master" then tag
                  else tag ++ "-" ++ branch ++ "-" ++ Str.drop1 sha)).
Proof.
  unfold formatted, default_fmt, version_kwargs. simpl.
  rewrite string_app_nil_r.
  destruct (String.eqb branch "master"); [rewrite string_app_nil_r|]; reflexivity.
Qed.

(** With three or four parts, the default template gives the first part
    alone on [master], and otherwise the first part, the branch and the
    third part less its first character; a fourth part changes
    nothing. *)
Lemma generate_version_default_parts env self describe_out branch_out
      tag count sha rest :
  check_output env gitver_argv = Return describe_out ->
  check_output env gitbranch_argv = Return branch_out ->
  Str.split_on "-" (Str.strip describe_out) = tag :: count :: sha :: rest ->
  (length rest <= 1)%nat ->
  generate_version env default_fmt self
  = (self, [EvCheckOutput gitver_argv; EvCheckOutput gitbranch_argv],
     Return (VStr (if String.eqb (Str.strip branch_out) "master" then tag
                   else tag ++ "-" ++ Str.strip branch_out ++ "-" ++
                        Str.drop1 sha))).
Proof.
  intros Hd Hb Hparts Hlen.
  destruct rest as [|marker [|x rest]]; [| |simpl in Hlen; lia].
  - rewrite (generate_version_three_parts env describe_out branch_out Hd Hb
               default_fmt self tag count sha Hparts).
    rewrite format_default_fmt. reflexivity.
  - rewrite (generate_version_four_parts env describe_out branch_out Hd Hb
               default_fmt self tag count sha marker Hparts).
    rewrite format_default_fmt. reflexivity.
Qed.

(** For an output of [git describe] of the shape
    [<tag>-<count>-g<sha>], with or without [-dirty], whose tag has no
    hyphen, the generated version is the tag on [master] and
    [<tag>-<branch>-<sha>] on any other branch: the count and the dirty
    marker do not show in it. *)
Theorem generate_version_of_describe_output :
  forall (env : Env) (self : IvyBuildTools) (describe_out branch_out : string)
         (tag count sha : string) (dirty : bool),
    check_output env gitver_argv = Return describe_out ->
    check_output env gitbranch_argv = Return branch_out ->
    lacks "-" tag = true -> lacks "-" count = true -> lacks "-" sha = true ->
    Str.strip describe_out
    = tag ++ "-" ++ count ++ "-g" ++ sha ++ (if dirty then "-dirty" else "") ->
    generate_version env default_fmt self
    = (self, [EvCheckOutput gitver_argv; EvCheckOutput gitbranch_argv],
       Return (VStr (if String.eqb (Str.strip branch_out) "master" then tag
                     else tag ++ "-" ++ Str.strip branch_out ++ "-" ++ sha))).
Proof.
  intros env self describe_out branch_out tag count sha dirty
         Hd Hb Htag Hcount Hsha Hout.
  assert (Hparts :
    Str.split_on "-" (Str.strip describe_out)
    = tag :: count :: String "g" sha :: (if dirty then ["dirty"] else [])).
  { rewrite Hout. simpl.
    rewrite (split_on_app "-" tag _ Htag), (split_on_app "-" count _ Hcount).
    destruct dirty.
    - change (String "g" (sha ++ "-dirty"))
        with (String "g" sha ++ String "-" "dirty").
      rewrite (split_on_app "-" (String "g" sha)); [reflexivity|].
      simpl. exact Hsha.
    - rewrite string_app_nil_r.
      rewrite (split_on_lacks "-" (String "g" sha)); [reflexivity|].
      simpl. exact Hsha. }
  rewrite (generate_version_default_parts env self describe_out branch_out
             tag count (String "g" sha) _ Hd Hb Hparts).
  - reflexivity.
  - destruct dirty; simpl; lia.
Qed.

Lemma generate_version_of_describe_output_witness :
  generate_version
    (Sample.git_env (Return "0.0.1-14-g1fbcd42-dirty") (Return "develop"))
    default_fmt (Sample.of_package [])
  = (Sample.of_package [],
     [EvCheckOutput gitver_argv; EvCheckOutput gitbranch_argv],
     Return (VStr "0.0.1-develop-1fbcd42")).
Proof.
  apply (generate_version_of_describe_output
           (Sample.git_env (Return "0.0.1-14-g1fbcd42-dirty") (Return "develop"))
           (Sample.of_package []) "0.0.1-14-g1fbcd42-dirty" "develop"
           "0.0.1" "14" "1fbcd42" true);
    reflexivity.
Defined.

(** A tag with one hyphen in it, as the [0.0.1-init] of the docstring.
    In a clean tree the output has four parts and is taken for a dirty
    one: the tag is cut at its hyphen and the commit count, less its
    first character, stands where the sha should; in a dirty tree the
    output has five parts and parsing fails. *)
Theorem generate_version_hyphenated_tag :
  forall (env : Env) (self : IvyBuildTools) (describe_out branch_out : string)
         (tag1 tag2 count sha : string) (dirty : bool),
    check_output env gitver_argv = Return describe_out ->
    check_output env gitbranch_argv = Return branch_out ->
    lacks "-" tag1 = true -> lacks "-" tag2 = true ->
    lacks "-" count = true -> lacks "-" sha = true ->
    Str.strip describe_out
    = tag1 ++ "-" ++ tag2 ++ "-" ++ count ++ "-g" ++ sha ++
      (if dirty then "-dirty" else "") ->
    generate_version env default_fmt self
    = (self, [EvCheckOutput gitver_argv; EvCheckOutput gitbranch_argv],
       if dirty then Raise (AssertionError "Cannot parse git tags")
       else Return (VStr (if String.eqb (Str.strip branch_out) "master"
                          then tag1
                          else tag1 ++ "-" ++ Str.strip branch_out ++ "-" ++
                               Str.drop1 count))).
Proof.
  intros env self describe_out branch_out tag1 tag2 count sha dirty
         Hd Hb Htag1 Htag2 Hcount Hsha Hout.
  assert (Hparts :
    Str.split_on "-" (Str.strip describe_out)
    = tag1 :: tag2 :: count :: String "g" sha ::
      (if dirty then ["dirty"] else [])).
  { rewrite Hout. simpl.
    rewrite (split_on_app "-" tag1 _ Htag1), (split_on_app "-" tag2 _ Htag2),
      (split_on_app "-" count _ Hcount).
    destruct dirty.
    - change (String "g" (sha ++ "-dirty"))
        with (String "g" sha ++ String "-" "dirty").
      rewrite (split_on_app "-" (String "g" sha)); [reflexivity|].
      simpl. exact Hsha.
    - rewrite string_app_nil_r.
      rewrite (split_on_lacks "-" (String "g" sha)); [reflexivity|].
      simpl. exact Hsha. }
  destruct dirty.
  - apply (generate_version_parse_failure env describe_out branch_out Hd Hb);
      rewrite Hparts; simpl; lia.
  - apply (generate_version_default_parts env self describe_out branch_out
             tag1 tag2 count [String "g" sha] Hd Hb Hparts).
    simpl. lia.
Qed.

Lemma generate_version_hyphenated_tag_witness :
  generate_version
    (Sample.git_env (Return "0.0.1-init-12-g1fbcd42") (Return "develop"))
    default_fmt (Sample.of_package [])
  = (Sample.of_package [],
     [EvCheckOutput gitver_argv; EvCheckOutput gitbranch_argv],
     Return (VStr "0.0.1-develop-2")).
Proof.
  apply (generate_version_hyphenated_tag
           (Sample.git_env (Return "0.0.1-init-12-g1fbcd42") (Return "develop"))
           (Sample.of_package []) "0.0.1-init-12-g1fbcd42" "develop"
           "0.0.1" "init" "12" "1fbcd42" false);
    reflexivity.
Defined.

(** ** Version generation: other templates *)

Lemma format_known_fields fmt version branch tag count sha dirty :
  fields_within version_fields fmt = true ->
  exists s,
    Format.format fmt (version_kwargs version branch tag count sha dirty)
    = Return s.
Proof.
  induction fmt as [|p fmt IH]; simpl.
  - intros _. eexists; reflexivity.
  - intros H. apply andb_true_iff in H. destruct H as [Hp Hfmt].
    destruct (IH Hfmt) as [s Hs]. destruct p as [l|n].
    + rewrite Hs. eexists; reflexivity.
    + unfold version_fields in Hp. simpl in Hp.
      repeat (apply orb_true_iff in Hp; destruct Hp as [Hp|Hp];
              [apply String.eqb_eq in Hp; subst n; simpl; rewrite Hs;
               eexists; reflexivity|]).
      discriminate Hp.
Qed.

(** A format string made of literal text (with doubled braces for a
    brace) and of plain replacement fields, a name between braces with
    no conversion, no format specification and no attribute or index
    access, whose names are all among [tag], [count], [sha], [dirty],
    [branch], [version] and [branchcommit], always formats: with both
    commands answering and three or four parts, [generate_version]
    returns a string.  The format strings meant are those [Format.parse]
    reads; the others are not spoken of. *)
Theorem generate_version_known_fields_returns :
  forall (env : Env) (fmt_string : string) (fmt : Format.template)
         (self : IvyBuildTools) (describe_out branch_out : string),
    Format.parse fmt_string = Some fmt ->
    check_output env gitver_argv = Return describe_out ->
    check_output env gitbranch_argv = Return branch_out ->
    length (Str.split_on "-" (Str.strip describe_out)) = 3%nat \/
    length (Str.split_on "-" (Str.strip describe_out)) = 4%nat ->
    fields_within version_fields fmt = true ->
    exists s, returned (generate_version env fmt self) = Return (VStr s).
Proof.
  intros env fmt_string fmt self describe_out branch_out _ Hd Hb Hlen Hfmt.
  destruct (Str.split_on "-" (Str.strip describe_out))
    as [|tag [|count [|sha [|marker [|x rest]]]]] eqn:Hparts;
    simpl in Hlen; try (destruct Hlen; discriminate).
  - rewrite (generate_version_three_parts env describe_out branch_out Hd Hb
               fmt self tag count sha Hparts).
    unfold formatted.
    destruct (format_known_fields fmt (Str.strip describe_out)
                (Str.strip branch_out) tag count sha false Hfmt) as [s Hs].
    rewrite Hs. exists s. reflexivity.
  - rewrite (generate_version_four_parts env describe_out branch_out Hd Hb
               fmt self tag count sha marker Hparts).
    unfold formatted.
    destruct (format_known_fields fmt (Str.strip describe_out)
                (Str.strip branch_out) tag count sha true Hfmt) as [s Hs].
    rewrite Hs. exists s. reflexivity.
Qed.

Lemma generate_version_known_fields_returns_witness :
  exists s,
    returned (generate_version
                (Sample.git_env (Return "v1.2.3-2-gabcdef1-dirty")
                   (Return "master"))
                [Format.Field "tag"; Format.Lit "+"; Format.Field "count";
                 Format.Lit "."; Format.Field "dirty"]
                (Sample.of_package []))
    = Return (VStr s).
Proof.
  apply (generate_version_known_fields_returns
           (Sample.git_env (Return "v1.2.3-2-gabcdef1-dirty") (Return "master"))
           "{tag}+{count}.{dirty}"
           [Format.Field "tag"; Format.Lit "+"; Format.Field "count";
            Format.Lit "."; Format.Field "dirty"]
           (Sample.of_package []) "v1.2.3-2-gabcdef1-dirty" "master").
  - reflexivity.
  - reflexivity.
  - reflexivity.
  - right. reflexivity.
  - reflexivity.
Defined.

(** ** The version property: its failures *)

(** With a [package] table, reading [version] raises nothing but the
    version failure, the exception with the fixed message whose cause is
    what [generate_version] raised; only an interrupt passes as it
    is. *)
Theorem version_failure_is_wrapped :
  forall (env : Env) (self : IvyBuildTools) (meta : dict) (e : exn),
    _package_meta self = VDict meta ->
    returned (version env self) = Raise e ->
    e = KeyboardInterrupt \/
    exists cause,
      e = Exception version_failure_msg (Some cause) /\
      returned (generate_version env default_fmt self) = Raise cause.
Proof.
  intros env self meta e Hmeta.
  unfold version, bind, get_package_meta, lift. rewrite Hmeta. simpl.
  assert (Hgen :
    returned (try_except (generate_version env default_fmt) ClsException
                (fun e0 => raise (Exception version_failure_msg (Some e0)))
                self) = Raise e ->
    e = KeyboardInterrupt \/
    exists cause,
      e = Exception version_failure_msg (Some cause) /\
      returned (generate_version env default_fmt self) = Raise cause).
  { unfold try_except, returned.
    destruct (generate_version env default_fmt self) as [[s log] r].
    destruct r as [v|e0]; simpl; [discriminate|].
    destruct e0; simpl; intros H; injection H as <-;
      first [ left; reflexivity
            | right; eexists; split; reflexivity ]. }
  destruct (dict_get meta "version") as [v|]; simpl.
  - destruct (truthy v); simpl.
    + discriminate.
    + destruct (try_except _ _ _ self) as [[s log] r] eqn:Ht.
      unfold returned in *. simpl in *. exact Hgen.
  - destruct (try_except _ _ _ self) as [[s log] r] eqn:Ht.
    unfold returned in *. simpl in *. exact Hgen.
Qed.

Lemma version_failure_is_wrapped_witness :
  Exception version_failure_msg
    (Some (Exception "No git tags found" (Some (CalledProcessError 128))))
  = KeyboardInterrupt \/
  exists cause,
    Exception version_failure_msg
      (Some (Exception "No git tags found" (Some (CalledProcessError 128))))
    = Exception version_failure_msg (Some cause) /\
    returned (generate_version Sample.no_git default_fmt (Sample.of_package []))
    = Raise cause.
Proof.
  apply (version_failure_is_wrapped Sample.no_git (Sample.of_package []) []);
    reflexivity.
Defined.

(** ** The tests *)

(** With three or four parts the default template returns a string. *)
Lemma generate_version_default_returns
      env self describe_out branch_out :
  check_output env gitver_argv = Return describe_out ->
  check_output env gitbranch_argv = Return branch_out ->
  length (Str.split_on "-" (Str.strip describe_out)) = 3%nat \/
  length (Str.split_on "-" (Str.strip describe_out)) = 4%nat ->
  exists s, returned (generate_version env default_fmt self) = Return (VStr s).
Proof.
  intros Hd Hb Hlen.
  destruct (Str.split_on "-" (Str.strip describe_out))
    as [|tag [|count [|sha [|marker [|x rest]]]]] eqn:Hparts;
    simpl in Hlen; try (destruct Hlen; discriminate).
  - rewrite (generate_version_default_parts env self describe_out branch_out
               tag count sha [] Hd Hb Hparts) by (simpl; lia).
    eexists; reflexivity.
  - rewrite (generate_version_default_parts env self describe_out branch_out
               tag count sha [marker] Hd Hb Hparts) by (simpl; lia).
    eexists; reflexivity.
Qed.


(** Whatever the default template generates starts with the first part
    of the output of [git describe]. *)
Lemma generate_version_starts_with_first_part
      env self describe_out branch_out v :
  check_output env gitver_argv = Return describe_out ->
  check_output env gitbranch_argv = Return branch_out ->
  returned (generate_version env default_fmt self) = Return v ->
  exists s, v = VStr s /\
            String.prefix (hd "" (Str.split_on "-" (Str.strip describe_out))) s
            = true.
Proof.
  intros Hd Hb.
  destruct (Str.split_on "-" (Str.strip describe_out))
    as [|tag [|count [|sha rest]]] eqn:Hparts.
  - rewrite (generate_version_parse_failure env describe_out branch_out Hd Hb);
      [discriminate | rewrite Hparts; simpl; lia ..].
  - rewrite (generate_version_parse_failure env describe_out branch_out Hd Hb);
      [discriminate | rewrite Hparts; simpl; lia ..].
  - rewrite (generate_version_parse_failure env describe_out branch_out Hd Hb);
      [discriminate | rewrite Hparts; simpl; lia ..].
  - destruct rest as [|marker [|x rest]].
    + rewrite (generate_version_default_parts env self describe_out branch_out
                 tag count sha [] Hd Hb Hparts) by (simpl; lia).
      unfold returned. simpl. intros H. injection H as <-.
      eexists. split; [reflexivity|]. simpl.
      destruct (String.eqb (Str.strip branch_out) "master").
      * rewrite <- (string_app_nil_r tag) at 2. apply prefix_app.
      * apply prefix_app.
    + rewrite (generate_version_default_parts env self describe_out branch_out
                 tag count sha [marker] Hd Hb Hparts) by (simpl; lia).
      unfold returned. simpl. intros H. injection H as <-.
      eexists. split; [reflexivity|]. simpl.
      destruct (String.eqb (Str.strip branch_out) "master").
      * rewrite <- (string_app_nil_r tag) at 2. apply prefix_app.
      * apply prefix_app.
    + rewrite (generate_version_parse_failure env describe_out branch_out Hd Hb);
        [discriminate | rewrite Hparts; simpl; lia ..].
Qed.

(** [test_name] passes exactly when the name in the [package] table is
    the string [ivybuildtools]. *)
Theorem test_name_passes_iff :
  forall (env : Env) (pf meta : dict),
    load_pipfile env = Return pf ->
    dict_get pf "package" = Some (VDict meta) ->
    snd (Tests.test_name env) = Return tt <->
    dict_get meta "name" = Some (VStr "ivybuildtools").
Proof.
  intros env pf meta Hload Hpkg.
  unfold Tests.test_name, init. rewrite Hload. simpl. rewrite Hpkg.
  unfold name.
  destruct (dict_get meta "name") as [v|] eqn:Hname.
  - rewrite (get_package_meta_present
               {| _pipfile := pf; _package_meta := VDict meta |} meta eq_refl
               "name" _ "" true v Hname).
    simpl. unfold Tests.check, Tests.eq_str.
    destruct v as [| b | n | s | l | d]; try (split; discriminate).
    destruct (String.eqb s "ivybuildtools") eqn:Hs.
    + apply String.eqb_eq in Hs. subst s. split; reflexivity.
    + apply String.eqb_neq in Hs. split; [discriminate|].
      intros H. injection H as ->. contradiction.
  - rewrite (get_package_meta_missing
               {| _pipfile := pf; _package_meta := VDict meta |} meta eq_refl
               "name" _ "" Hname).
    simpl. split; discriminate.
Qed.

Lemma test_name_passes_iff_witness :
  snd (Tests.test_name (Sample.full_env [])) = Return tt <->
  dict_get [("name", VStr "ivybuildtools"); ("version", VStr "1.0.4");
            ("description", VStr "build helpers");
            ("url", VStr "https://example.org/ivybuildtools");
            ("author", VStr "ivy")] "name" = Some (VStr "ivybuildtools").
Proof.
  apply (test_name_passes_iff (Sample.full_env []) Sample.full_pipfile);
    reflexivity.
Defined.

(** [test_version] passes when the manifest pins no version, the git
    commands answer, the long output has three or four parts, and the
    short and the long output of [git describe] start with the same
    part. *)
Theorem test_version_passes :
  forall (env : Env) (pf meta : dict) (short_out describe_out branch_out : string),
    check_output env ["git"; "describe"; "--tags"] = Return short_out ->
    load_pipfile env = Return pf ->
    dict_get pf "package" = Some (VDict meta) ->
    (forall v, dict_get meta "version" = Some v -> truthy v = false) ->
    check_output env gitver_argv = Return describe_out ->
    check_output env gitbranch_argv = Return branch_out ->
    length (Str.split_on "-" (Str.strip describe_out)) = 3%nat \/
    length (Str.split_on "-" (Str.strip describe_out)) = 4%nat ->
    hd "" (Str.split_on "-" (Str.strip short_out))
    = hd "" (Str.split_on "-" (Str.strip describe_out)) ->
    snd (Tests.test_version env) = Return tt.
Proof.
  intros env pf meta short_out describe_out branch_out
         Hshort Hload Hpkg Hno Hd Hb Hlen Hsame.
  unfold Tests.test_version.
  change (Str.split_on " " Tests.gitver_test_command)
    with ["git"; "describe"; "--tags"].
  rewrite Hshort. unfold init. rewrite Hload. simpl. rewrite Hpkg.
  set (self := {| _pipfile := pf; _package_meta := VDict meta |}).
  assert (Hversion :
    version env self
    = try_except (generate_version env default_fmt) ClsException
        (fun e => raise (Exception version_failure_msg (Some e))) self).
  { unfold version, bind, get_package_meta, lift. simpl.
    destruct (dict_get meta "version") as [v|] eqn:Hv; simpl.
    - rewrite (Hno v eq_refl).
      destruct (try_except _ _ _ self) as [[s l] r]. reflexivity.
    - destruct (try_except _ _ _ self) as [[s l] r]. reflexivity. }
  rewrite Hversion. unfold try_except.
  destruct (generate_version_default_returns env self describe_out
              branch_out Hd Hb Hlen) as [s Hs].
  destruct (generate_version env default_fmt self) as [[s0 log] r] eqn:Hgen.
  unfold returned in Hs. simpl in Hs. subst r. simpl.
  destruct (generate_version_starts_with_first_part env self describe_out
              branch_out (VStr s) Hd Hb) as [s' [Heq Hprefix]].
  { rewrite Hgen. reflexivity. }
  injection Heq as <-.
  rewrite Hsame, (contains_of_prefix _ _ Hprefix). reflexivity.
Qed.

Lemma test_version_passes_witness :
  snd (Tests.test_version
         (Checkout.env Checkout.unpinned_pipfile "v1.0.4-2-gabcdef1"
            "v1.0.4-2-gabcdef1-dirty" "develop" []))
  = Return tt.
Proof.
  apply (test_version_passes
           (Checkout.env Checkout.unpinned_pipfile "v1.0.4-2-gabcdef1"
              "v1.0.4-2-gabcdef1-dirty" "develop" [])
           Checkout.unpinned_pipfile Checkout.unpinned_package
           "v1.0.4-2-gabcdef1" "v1.0.4-2-gabcdef1-dirty" "develop");
    try reflexivity.
  - intros v Hv. vm_compute in Hv. discriminate Hv.
  - right. reflexivity.
Defined.

(** When the manifest pins a version string, [test_version] runs no
    version generation: it passes exactly when the pinned string
    contains the first part of the short output of [git describe]. *)
Theorem test_version_pinned :
  forall (env : Env) (pf meta : dict) (short_out pinned : string),
    check_output env ["git"; "describe"; "--tags"] = Return short_out ->
    load_pipfile env = Return pf ->
    dict_get pf "package" = Some (VDict meta) ->
    dict_get meta "version" = Some (VStr pinned) ->
    pinned <> "" ->
    Tests.test_version env
    = ([EvCheckOutput ["git"; "describe"; "--tags"]; EvLoadPipfile],
       if Str.contains (hd "" (Str.split_on "-" (Str.strip short_out))) pinned
       then Return tt else Raise (AssertionError "")).
Proof.
  intros env pf meta short_out pinned Hshort Hload Hpkg Hv Hne.
  unfold Tests.test_version.
  change (Str.split_on " " Tests.gitver_test_command)
    with ["git"; "describe"; "--tags"].
  rewrite Hshort. unfold init. rewrite Hload. simpl. rewrite Hpkg.
  unfold version, bind, get_package_meta, lift. simpl. rewrite Hv. simpl.
  apply String.eqb_neq in Hne. rewrite Hne. simpl.
  unfold Tests.check. reflexivity.
Qed.

Lemma test_version_pinned_witness :
  Tests.test_version
    (Checkout.env Sample.full_pipfile "v1.0.5-2-gabcdef1"
       "v1.0.5-2-gabcdef1" "master" [])
  = ([EvCheckOutput ["git"; "describe"; "--tags"]; EvLoadPipfile],
     if Str.contains (hd "" (Str.split_on "-" (Str.strip "v1.0.5-2-gabcdef1")))
          "1.0.4"
     then Return tt else Raise (AssertionError "")).
Proof.
  apply (test_version_pinned
           (Checkout.env Sample.full_pipfile "v1.0.5-2-gabcdef1"
              "v1.0.5-2-gabcdef1" "master" [])
           Sample.full_pipfile
           [("name", VStr "ivybuildtools"); ("version", VStr "1.0.4");
            ("description", VStr "build helpers");
            ("url", VStr "https://example.org/ivybuildtools");
            ("author", VStr "ivy")]
           "v1.0.5-2-gabcdef1" "1.0.4");
    try reflexivity.
  discriminate.
Defined.

(** ** The Python version constraint: missing, present, misplaced *)

(** Whenever the manifest gives no Python version, be it that there is
    no [requires] section or that the section has no [python_version],
    [python_requires] prints its warning and returns [None]. *)
Theorem python_requires_missing_returns_none :
  forall (self : IvyBuildTools),
    dict_get (_pipfile self) "requires" = None \/
    (exists requires,
        dict_get (_pipfile self) "requires" = Some (VDict requires) /\
        dict_get requires "python_version" = None) ->
    python_requires self
    = (self,
       [EvPrint ("[IvyBuildTools] WARN: Unable to find required python " ++
                 "version for this module, using default [>=3.7, <4].")],
       Return VNone).
Proof.
  intros self [Hnone | [requires [Hr Hv]]];
    unfold python_requires, try_except, bind, get_pipfile, lift; simpl.
  - rewrite Hnone. reflexivity.
  - rewrite Hr. simpl. rewrite Hv. reflexivity.
Qed.

Lemma python_requires_missing_returns_none_witness :
  python_requires (Sample.instance [("requires", VDict [])] [])
  = (Sample.instance [("requires", VDict [])] [],
     [EvPrint ("[IvyBuildTools] WARN: Unable to find required python " ++
               "version for this module, using default [>=3.7, <4].")],
     Return VNone).
Proof.
  apply (python_requires_missing_returns_none
           (Sample.instance [("requires", VDict [])] [])).
  right. exists []. split; reflexivity.
Defined.

(** A [python_version] of any type is put into the constraint as
    [str] prints it, unchecked: the result is [>=], that text, and
    [, <4]. *)
Theorem python_requires_formats_any_value :
  forall (self : IvyBuildTools) (requires : dict) (v : value),
    dict_get (_pipfile self) "requires" = Some (VDict requires) ->
    dict_get requires "python_version" = Some v ->
    python_requires self
    = (self, [], Return (VStr (">=" ++ Repr.str v ++ ", <4"))).
Proof.
  intros self requires v Hr Hv.
  unfold python_requires, try_except, bind, get_pipfile, lift. simpl.
  rewrite Hr. simpl. rewrite Hv. reflexivity.
Qed.

Lemma python_requires_formats_any_value_witness :
  python_requires
    (Sample.instance [("requires", VDict [("python_version", VInt 3)])] [])
  = (Sample.instance [("requires", VDict [("python_version", VInt 3)])] [],
     [], Return (VStr ">=3, <4")).
Proof.
  apply (python_requires_formats_any_value
           (Sample.instance [("requires", VDict [("python_version", VInt 3)])] [])
           [("python_version", VInt 3)] (VInt 3));
    reflexivity.
Defined.

(** A [requires] entry that is not a table makes [python_requires]
    raise [TypeError]: the handler is for [KeyError] only, so there is
    neither warning nor default. *)
Theorem python_requires_not_a_table :
  forall (self : IvyBuildTools) (requires : value),
    dict_get (_pipfile self) "requires" = Some requires ->
    (forall d, requires <> VDict d) ->
    python_requires self = (self, [], Raise TypeError).
Proof.
  intros self requires Hr Hnot.
  unfold python_requires, try_except, bind, get_pipfile, lift. simpl.
  rewrite Hr.
  destruct requires as [| b | n | s | l | d];
    try (exfalso; apply (Hnot d); reflexivity); reflexivity.
Qed.

Lemma python_requires_not_a_table_witness :
  python_requires (Sample.instance [("requires", VStr "3.7")] [])
  = (Sample.instance [("requires", VStr "3.7")] [], [], Raise TypeError).
Proof.
  apply (python_requires_not_a_table
           (Sample.instance [("requires", VStr "3.7")] []) (VStr "3.7")).
  - reflexivity.
  - intros d H. discriminate H.
Defined.

(** ** The requirements: missing section, other constraints *)

(** With no [packages] section in the Pipfile, [install_requires]
    raises the bare [KeyError] of the key. *)
Theorem install_requires_no_packages_section :
  forall (self : IvyBuildTools),
    dict_get (_pipfile self) "packages" = None ->
    install_requires self = (self, [], Raise (KeyError "packages")).
Proof.
  intros self Hp.
  unfold install_requires, _generate_requires, bind, get_pipfile, lift.
  simpl. rewrite Hp. reflexivity.
Qed.

Lemma install_requires_no_packages_section_witness :
  install_requires (Sample.of_package [("name", VStr "ivybuildtools")])
  = (Sample.of_package [("name", VStr "ivybuildtools")], [],
     Raise (KeyError "packages")).
Proof.
  apply (install_requires_no_packages_section
           (Sample.of_package [("name", VStr "ivybuildtools")])).
  reflexivity.
Defined.

Lemma requirement_of_container pkg ver :
  is_container ver = true ->
  exists r, requirement pkg ver = Return r /\ String.prefix pkg r = true.
Proof.
  intros Hc. unfold requirement.
  destruct ver as [| b | n | s | l | d]; try discriminate Hc; simpl;
    match goal with
    | |- context [if ?c then _ else _] => destruct c
    end;
    eexists; (split; [reflexivity | apply prefix_app]).
Qed.

Lemma requires_loop_containers items :
  forallb (fun kv => is_container (snd kv)) items = true ->
  forall acc,
  exists l,
    requires_loop items acc = Return (acc ++ l)%list /\
    Forall2 (fun kv r => String.prefix (fst kv) r = true) items l.
Proof.
  induction items as [|[pkg ver] items IH]; simpl; intros Hall acc.
  - exists []. rewrite app_nil_r. split; [reflexivity | constructor].
  - apply andb_true_iff in Hall. destruct Hall as [Hver Hitems].
    destruct (requirement_of_container pkg ver Hver) as [r [Hr Hp]].
    rewrite Hr. destruct (IH Hitems (acc ++ [r])%list) as [l [Hl Hf]].
    exists (r :: l). rewrite Hl, <- app_assoc. split; [reflexivity|].
    constructor; [exact Hp | exact Hf].
Qed.

(** When every constraint of the [packages] table is a string, an
    array or a table, [install_requires] returns a list with one string
    per dependency, in the order of the table, each starting with the
    name of its dependency. *)
Theorem install_requires_one_per_dependency :
  forall (self : IvyBuildTools) (items : dict),
    dict_get (_pipfile self) "packages" = Some (VDict items) ->
    forallb (fun kv => is_container (snd kv)) items = true ->
    exists l,
      install_requires self = (self, [], Return (VList (map VStr l))) /\
      Forall2 (fun kv r => String.prefix (fst kv) r = true) items l.
Proof.
  intros self items Hp Hall.
  destruct (requires_loop_containers items Hall []) as [l [Hl Hf]].
  exists l. split; [|exact Hf].
  unfold install_requires, _generate_requires, bind, get_pipfile, lift.
  simpl. rewrite Hp. simpl. rewrite Hl. reflexivity.
Qed.

Lemma install_requires_one_per_dependency_witness :
  exists l,
    install_requires
      (Sample.instance
         [("packages",
           VDict [("toml", VStr "*");
                  ("requests", VDict [("version", VStr "*");
                                      ("extras", VList [VStr "socks"])])])] [])
    = (Sample.instance
         [("packages",
           VDict [("toml", VStr "*");
                  ("requests", VDict [("version", VStr "*");
                                      ("extras", VList [VStr "socks"])])])] [],
       [], Return (VList (map VStr l))) /\
    Forall2 (fun kv r => String.prefix (fst kv) r = true)
      [("toml", VStr "*");
       ("requests", VDict [("version", VStr "*");
                           ("extras", VList [VStr "socks"])])] l.
Proof.
  apply (install_requires_one_per_dependency
           (Sample.instance
              [("packages",
                VDict [("toml", VStr "*");
                       ("requests", VDict [("version", VStr "*");
                                           ("extras", VList [VStr "socks"])])])]
              []));
    reflexivity.
Defined.

Lemma requirement_raises_type_error pkg ver e :
  requirement pkg ver = Raise e -> e = TypeError.
Proof.
  unfold requirement.
  destruct ver as [| b | n | s | l | d]; simpl; intros H;
    first [ injection H as <-; reflexivity | discriminate H ].
Qed.

Lemma requires_loop_scalar items pkg ver :
  In (pkg, ver) items ->
  is_container ver = false ->
  forall acc, requires_loop items acc = Raise TypeError.
Proof.
  induction items as [|[pkg' ver'] items IH]; simpl; [contradiction|].
  intros [Heq | Hin] Hs acc.
  - injection Heq as -> ->. unfold requirement.
    destruct ver as [| b | n | s | l | d]; try discriminate Hs; reflexivity.
  - destruct (requirement pkg' ver') as [r|e] eqn:Hr.
    + apply IH; assumption.
    + rewrite (requirement_raises_type_error pkg' ver' e Hr). reflexivity.
Qed.

(** One constraint that is a number or a boolean, anywhere in the
    [packages] table, makes [install_requires] raise [TypeError]: no
    list is returned for the other dependencies either. *)
Theorem install_requires_scalar_constraint :
  forall (self : IvyBuildTools) (items : dict) (pkg : string) (ver : value),
    dict_get (_pipfile self) "packages" = Some (VDict items) ->
    In (pkg, ver) items ->
    is_container ver = false ->
    install_requires self = (self, [], Raise TypeError).
Proof.
  intros self items pkg ver Hp Hin Hs.
  unfold install_requires, _generate_requires, bind, get_pipfile, lift.
  simpl. rewrite Hp. simpl.
  rewrite (requires_loop_scalar items pkg ver Hin Hs []). reflexivity.
Qed.

Lemma install_requires_scalar_constraint_witness :
  install_requires
    (Sample.instance
       [("packages", VDict [("toml", VStr "*"); ("six", VInt 1)])] [])
  = (Sample.instance
       [("packages", VDict [("toml", VStr "*"); ("six", VInt 1)])] [],
     [], Raise TypeError).
Proof.
  apply (install_requires_scalar_constraint
           (Sample.instance
              [("packages", VDict [("toml", VStr "*"); ("six", VInt 1)])] [])
           [("toml", VStr "*"); ("six", VInt 1)] "six" (VInt 1)).
  - reflexivity.
  - simpl. right. left. reflexivity.
  - reflexivity.
Defined.

Lemma contains_char_lacks c s :
  Str.contains (String c EmptyString) s = negb (lacks c s).
Proof.
  induction s as [|c' s IH]; simpl; [reflexivity|].
  destruct (ascii_dec c c') as [<-|Hne].
  - rewrite Ascii.eqb_refl. destruct s; reflexivity.
  - assert (Hc : Ascii.eqb c' c = false).
    { apply Ascii.eqb_neq. intros H. apply Hne. symmetry. exact H. }
    rewrite Hc. simpl. exact IH.
Qed.

Lemma lacks_app c a b : lacks c (a ++ b) = lacks c a && lacks c b.
Proof.
  induction a as [|x a IH]; simpl; [reflexivity|].
  rewrite IH, andb_assoc. reflexivity.
Qed.

(** No wildcard gets into the requirements: when the constraints are
    strings and no dependency has a [*] in its name, no element of
    [install_requires] has a [*] in it. *)
Theorem install_requires_has_no_wildcard :
  forall (self : IvyBuildTools) (deps : list (string * string)),
    dict_get (_pipfile self) "packages"
    = Some (VDict (map (fun nc => (fst nc, VStr (snd nc))) deps)) ->
    forallb (fun nc => lacks "*" (fst nc)) deps = true ->
    exists l,
      returned (install_requires self) = Return (VList (map VStr l)) /\
      length l = length deps /\
      forallb (lacks "*") l = true.
Proof.
  intros self deps Hp Hnames.
  exists (map (fun nc => if Str.contains "*" (snd nc) then fst nc
                         else fst nc ++ snd nc) deps).
  split; [|split].
  - unfold install_requires, _generate_requires, bind, get_pipfile, lift,
      returned.
    simpl. rewrite Hp. simpl. rewrite requires_loop_strings. reflexivity.
  - apply length_map.
  - clear Hp.
    induction deps as [|[pkg constraint] deps IH]; simpl in *; [reflexivity|].
    apply andb_true_iff in Hnames. destruct Hnames as [Hpkg Hdeps].
    rewrite (IH Hdeps), andb_true_r.
    change "*" with (String "*"%char EmptyString).
    rewrite contains_char_lacks.
    destruct (lacks "*" constraint) eqn:Hc; simpl.
    + rewrite lacks_app, Hpkg, Hc. reflexivity.
    + exact Hpkg.
Qed.

Lemma install_requires_has_no_wildcard_witness :
  exists l,
    returned (install_requires
                (Sample.instance
                   [("packages", VDict [("django", VStr "==2.*");
                                        ("toml", VStr "*");
                                        ("pipfile", VStr ">=0.0.2")])] []))
    = Return (VList (map VStr l)) /\
    length l = 3%nat /\
    forallb (lacks "*") l = true.
Proof.
  apply (install_requires_has_no_wildcard
           (Sample.instance
              [("packages", VDict [("django", VStr "==2.*");
                                   ("toml", VStr "*");
                                   ("pipfile", VStr ">=0.0.2")])] [])
           [("django", "==2.*"); ("toml", "*"); ("pipfile", ">=0.0.2")]);
    reflexivity.
Defined.

(** ** What the resolver does to the world outside *)

Lemma events_within_ret {A : Type} P (a : A) : events_within P (ret a).
Proof. intros self ev []. Qed.

Lemma events_within_raise {A : Type} P e : events_within P (@raise A e).
Proof. intros self ev []. Qed.

Lemma events_within_lift {A : Type} P (r : result A) : events_within P (lift r).
Proof. intros self ev []. Qed.

Lemma events_within_get_pipfile P : events_within P get_pipfile.
Proof. intros self ev []. Qed.

Lemma events_within_get_package_meta P : events_within P get_package_meta.
Proof. intros self ev []. Qed.

Lemma events_within_emit (P : event -> Prop) ev0 :
  P ev0 -> events_within P (emit ev0).
Proof. intros H self ev [<-|[]]. exact H. Qed.

Lemma events_within_bind {A B : Type} P (m : M A) (k : A -> M B) :
  events_within P m -> (forall a, events_within P (k a)) ->
  events_within P (bind m k).
Proof.
  intros Hm Hk self ev. specialize (Hm self ev).
  unfold events, bind in *. destruct (m self) as [[s log] r]. simpl in Hm.
  destruct r as [a|e]; simpl; [|exact Hm].
  specialize (Hk a s ev). unfold events in Hk.
  destruct (k a s) as [[s' log'] r']. simpl in *.
  intros Hin. apply in_app_or in Hin. destruct Hin; auto.
Qed.

Lemma events_within_try_except {A : Type} P (m : M A) cls (h : exn -> M A) :
  events_within P m -> (forall e, events_within P (h e)) ->
  events_within P (try_except m cls h).
Proof.
  intros Hm Hh self ev. specialize (Hm self ev).
  unfold events, try_except in *. destruct (m self) as [[s log] r]. simpl in Hm.
  destruct r as [a|e]; simpl; [exact Hm|].
  destruct (isinstance e cls); simpl; [|exact Hm].
  specialize (Hh e s ev). unfold events in Hh.
  destruct (h e s) as [[s' log'] r']. simpl in *.
  intros Hin. apply in_app_or in Hin. destruct Hin; auto.
Qed.

Ltac events_step :=
  first [ apply events_within_bind; [|intros ?]
        | apply events_within_try_except; [|intros ?]
        | apply events_within_ret
        | apply events_within_raise
        | apply events_within_lift
        | apply events_within_get_pipfile
        | apply events_within_get_package_meta
        | apply events_within_emit; simpl; solve [auto] ].

Lemma events_within_required_field P key msg default required :
  (forall line, P (EvPrint line)) ->
  events_within P (_get_package_meta key msg default required).
Proof.
  intros Hprint. unfold _get_package_meta, print.
  destruct required; repeat events_step.
Qed.

Lemma events_within_long_description P env :
  (forall line, P (EvPrint line)) -> P (EvOpen "README.md") ->
  events_within P (long_description env).
Proof.
  intros Hprint Hopen. unfold long_description, print. repeat events_step.
Qed.

Lemma events_within_python_requires P :
  (forall line, P (EvPrint line)) -> events_within P python_requires.
Proof. intros Hprint. unfold python_requires, print. repeat events_step. Qed.

Lemma events_within_install_requires P : events_within P install_requires.
Proof. unfold install_requires, _generate_requires. repeat events_step. Qed.

Lemma events_within_generate_version P env fmt :
  P (EvCheckOutput gitver_argv) -> P (EvCheckOutput gitbranch_argv) ->
  events_within P (generate_version env fmt).
Proof.
  intros Hver Hbranch. unfold generate_version, run_command, assert_.
  rewrite gitver_command_split, gitbranch_command_split.
  apply events_within_bind; [repeat events_step|]. intros ver.
  apply events_within_bind; [repeat events_step|]. intros branch.
  apply events_within_bind.
  { destruct (existsb _ _); events_step. }
  intros _.
  destruct (firstn 3 (Str.split_on "-" ver)) as [|tag [|count [|sha [|x l]]]];
    repeat events_step.
Qed.

Lemma events_within_version P env :
  P (EvCheckOutput gitver_argv) -> P (EvCheckOutput gitbranch_argv) ->
  events_within P (version env).
Proof.
  intros Hver Hbranch. unfold version.
  apply events_within_bind; [events_step|]. intros meta.
  apply events_within_bind; [events_step|]. intros v.
  destruct (truthy v); [events_step|].
  apply events_within_try_except;
    [apply events_within_generate_version; assumption | intros; events_step].
Qed.

(** Whatever operation is run, on whatever instance and in whatever
    environment, the only file it opens is [README.md], the only
    commands it runs are [git describe --tags --long --dirty] and
    [git rev-parse --abbrev-ref HEAD], and the Pipfile is not loaded
    again. *)
Theorem operations_do_only_expected_events :
  forall (env : Env) (op : operation) (self : IvyBuildTools) (ev : event),
    In ev (events (run env op self)) -> expected_event ev.
Proof.
  intros env op self. revert self.
  change (events_within expected_event (run env op)).
  assert (Hprint : forall line, expected_event (EvPrint line))
    by (intros; exact I).
  assert (Hopen : expected_event (EvOpen "README.md")) by reflexivity.
  assert (Hver : expected_event (EvCheckOutput gitver_argv))
    by (left; reflexivity).
  assert (Hbranch : expected_event (EvCheckOutput gitbranch_argv))
    by (right; reflexivity).
  destruct op; simpl;
    try (apply events_within_required_field; assumption).
  - apply events_within_long_description; assumption.
  - apply events_within_version; assumption.
  - apply events_within_python_requires; assumption.
  - apply events_within_install_requires.
  - unfold generate_setup, name, description, url, author.
    repeat first
      [ apply events_within_required_field; assumption
      | apply events_within_version; assumption
      | apply events_within_long_description; assumption
      | apply events_within_python_requires; assumption
      | apply events_within_install_requires
      | apply events_within_emit; reflexivity
      | events_step ].
Qed.

Lemma operations_do_only_expected_events_witness :
  expected_event (EvCheckOutput gitver_argv).
Proof.
  apply (operations_do_only_expected_events Sample.no_git OpGenerateSetup
           (Sample.of_package [("name", VStr "ivybuildtools")])).
  vm_compute. left. reflexivity.
Defined.

(** ** The mapping of [generate_setup] *)

Lemma readonly_eta {A : Type} (m : M A) self :
  readonly m -> m self = (self, events (m self), returned (m self)).
Proof.
  intros Hm. specialize (Hm self). unfold instance_after, events, returned in *.
  destruct (m self) as [[s log] r]. simpl in *. subst s. reflexivity.
Qed.

(** Sequencing after a computation that leaves the instance alone. *)
Lemma bind_readonly {A B : Type} (m : M A) (k : A -> M B) self :
  readonly m ->
  bind m k self
  = match returned (m self) with
    | Return a =>
        (instance_after (k a self),
         (events (m self) ++ events (k a self))%list,
         returned (k a self))
    | Raise e => (self, events (m self), Raise e)
    end.
Proof.
  intros Hm. unfold bind at 1. rewrite (readonly_eta m self Hm). simpl.
  destruct (returned (m self)) as [a|e]; [|reflexivity].
  unfold instance_after, events, returned.
  destruct (k a self) as [[s log] r]. reflexivity.
Qed.

Lemma readonly_name : readonly name.
Proof. apply readonly_get_package_meta_key. Qed.

Lemma readonly_description : readonly description.
Proof. apply readonly_get_package_meta_key. Qed.

Lemma readonly_url : readonly url.
Proof. apply readonly_get_package_meta_key. Qed.

Lemma readonly_author : readonly author.
Proof. apply readonly_get_package_meta_key. Qed.

Lemma generate_setup_returned :
  forall (env : Env) (self : IvyBuildTools) (setup : value),
    returned (generate_setup env self) = Return setup <->
    exists v_name v_version v_description v_long_description
           v_url v_author v_python_requires v_install_requires,
      returned (name self) = Return v_name /\
      returned (version env self) = Return v_version /\
      returned (description self) = Return v_description /\
      returned (long_description env self) = Return v_long_description /\
      returned (url self) = Return v_url /\
      returned (author self) = Return v_author /\
      returned (python_requires self) = Return v_python_requires /\
      returned (install_requires self) = Return v_install_requires /\
      setup = setup_mapping v_name v_version v_description v_long_description
                v_url v_author v_python_requires v_install_requires
                (find_packages env find_packages_exclude).
Proof.
  intros env self setup. unfold generate_setup.
  rewrite (bind_readonly name _ self readonly_name).
  destruct (returned (name self)) as [v1|e1];
    [|split; [discriminate | intros (?&?&?&?&?&?&?&?&H&_); discriminate H]].
  rewrite (bind_readonly (version env) _ self (readonly_version env)).
  destruct (returned (version env self)) as [v2|e2];
    [|split; [discriminate | intros (?&?&?&?&?&?&?&?&_&H&_); discriminate H]].
  rewrite (bind_readonly description _ self readonly_description).
  destruct (returned (description self)) as [v3|e3];
    [|split; [discriminate | intros (?&?&?&?&?&?&?&?&_&_&H&_); discriminate H]].
  rewrite (bind_readonly (long_description env) _ self
             (readonly_long_description env)).
  destruct (returned (long_description env self)) as [v4|e4];
    [|split; [discriminate
             | intros (?&?&?&?&?&?&?&?&_&_&_&H&_); discriminate H]].
  rewrite (bind_readonly url _ self readonly_url).
  destruct (returned (url self)) as [v5|e5];
    [|split; [discriminate
             | intros (?&?&?&?&?&?&?&?&_&_&_&_&H&_); discriminate H]].
  rewrite (bind_readonly author _ self readonly_author).
  destruct (returned (author self)) as [v6|e6];
    [|split; [discriminate
             | intros (?&?&?&?&?&?&?&?&_&_&_&_&_&H&_); discriminate H]].
  rewrite (bind_readonly (emit (EvFindPackages find_packages_exclude)) _ self
             (readonly_static _ (static_emit _))).
  cbn [returned emit snd].
  rewrite (bind_readonly python_requires _ self readonly_python_requires).
  destruct (returned (python_requires self)) as [v7|e7];
    [|split; [discriminate
             | intros (?&?&?&?&?&?&?&?&_&_&_&_&_&_&H&_); discriminate H]].
  rewrite (bind_readonly install_requires _ self readonly_install_requires).
  destruct (returned (install_requires self)) as [v8|e8];
    [|split; [discriminate
             | intros (?&?&?&?&?&?&?&?&_&_&_&_&_&_&_&H&_); discriminate H]].
  unfold returned, ret, setup_mapping. simpl. split.
  - intros H. injection H as <-.
    exists v1, v2, v3, v4, v5, v6, v7, v8. repeat split; reflexivity.
  - intros (?&?&?&?&?&?&?&?&H1&H2&H3&H4&H5&H6&H7&H8&->).
    injection H1 as <-. injection H2 as <-. injection H3 as <-.
    injection H4 as <-. injection H5 as <-. injection H6 as <-.
    injection H7 as <-. injection H8 as <-. reflexivity.
Qed.

(** [generate_setup] returns a mapping exactly when each of the eight
    properties returns, read on the same instance; the mapping then
    holds the values the properties returned, the fixed content type
    and the packages found. *)
Theorem generate_setup_returns_iff :
  forall (env : Env) (self : IvyBuildTools) (setup : value),
    returned (generate_setup env self) = Return setup <->
    exists v_name v_version v_description v_long_description
           v_url v_author v_python_requires v_install_requires,
      returned (name self) = Return v_name /\
      returned (version env self) = Return v_version /\
      returned (description self) = Return v_description /\
      returned (long_description env self) = Return v_long_description /\
      returned (url self) = Return v_url /\
      returned (author self) = Return v_author /\
      returned (python_requires self) = Return v_python_requires /\
      returned (install_requires self) = Return v_install_requires /\
      setup = setup_mapping v_name v_version v_description v_long_description
                v_url v_author v_python_requires v_install_requires
                (find_packages env find_packages_exclude).
Proof. exact generate_setup_returned. Qed.

(** What [generate_setup] returns is always a mapping with the ten keys
    [name], [version], [description], [long_description],
    [long_description_content_type], [url], [author], [packages],
    [python_requires], [install_requires], in this order, whose content
    type is [text/markdown] and whose packages are those that
    [find_packages] found. *)
Theorem generate_setup_keys :
  forall (env : Env) (self : IvyBuildTools) (setup : value),
    returned (generate_setup env self) = Return setup ->
    exists d,
      setup = VDict d /\
      map fst d = setup_keys /\
      dict_get d "long_description_content_type" = Some (VStr "text/markdown") /\
      dict_get d "packages"
      = Some (VList (map VStr (find_packages env find_packages_exclude))).
Proof.
  intros env self setup H.
  apply generate_setup_returned in H.
  destruct H as (v1&v2&v3&v4&v5&v6&v7&v8&_&_&_&_&_&_&_&_&->).
  unfold setup_mapping. eexists. repeat split.
Qed.

Lemma generate_setup_keys_witness :
  exists d,
    VDict [("name", VStr "ivybuildtools"); ("version", VStr "1.0.4");
           ("description", VStr "build helpers");
           ("long_description", VStr "# ivybuildtools");
           ("long_description_content_type", VStr "text/markdown");
           ("url", VStr "https://example.org/ivybuildtools");
           ("author", VStr "ivy");
           ("packages", VList [VStr "ivybuildtools"]);
           ("python_requires", VStr ">=3.7, <4");
           ("install_requires", VList [VStr "toml"; VStr "pipfile>=0.0.2"])]
    = VDict d /\
    map fst d = setup_keys /\
    dict_get d "long_description_content_type" = Some (VStr "text/markdown") /\
    dict_get d "packages"
    = Some (VList (map VStr (find_packages (Sample.full_env ["ivybuildtools"])
                               find_packages_exclude))).
Proof.
  apply (generate_setup_keys (Sample.full_env ["ivybuildtools"])
           Sample.full_instance).
  reflexivity.
Defined.

(** [generate_setup] reads [name] first: on a [package] table with no
    name it raises the error of the name at once; no README is opened,
    no git command is run, no package is looked for. *)
Theorem generate_setup_missing_name :
  forall (env : Env) (self : IvyBuildTools) (meta : dict),
    _package_meta self = VDict meta ->
    dict_get meta "name" = None ->
    generate_setup env self
    = (self, [],
       Raise (Exception "No package name specified in Pipfile. Cannot continue."
                (Some (KeyError "name")))).
Proof.
  intros env self meta Hmeta Hname. unfold generate_setup.
  unfold bind at 1. unfold name.
  rewrite (get_package_meta_missing self meta Hmeta "name" _ "" Hname).
  reflexivity.
Qed.

Lemma generate_setup_missing_name_witness :
  generate_setup (Sample.full_env []) (Sample.of_package [("author", VStr "ivy")])
  = (Sample.of_package [("author", VStr "ivy")], [],
     Raise (Exception "No package name specified in Pipfile. Cannot continue."
              (Some (KeyError "name")))).
Proof.
  apply (generate_setup_missing_name (Sample.full_env [])
           (Sample.of_package [("author", VStr "ivy")])
           [("author", VStr "ivy")]);
    reflexivity.
Defined.

Lemma events_at_bind {A B : Type} (P : event -> Prop) (m : M A)
      (k : A -> M B) self :
  readonly m ->
  (forall ev, In ev (events (m self)) -> P ev) ->
  (forall a ev, In ev (events (k a self)) -> P ev) ->
  forall ev, In ev (events (bind m k self)) -> P ev.
Proof.
  intros Hr Hm Hk ev. rewrite (bind_readonly m k self Hr).
  destruct (returned (m self)) as [a|e]; unfold events at 1; simpl.
  - intros Hin. apply in_app_or in Hin. destruct Hin as [Hin|Hin].
    + apply Hm. exact Hin.
    + apply (Hk a). exact Hin.
  - apply Hm.
Qed.

Lemma version_pinned_outcome env self meta v :
  _package_meta self = VDict meta ->
  dict_get meta "version" = Some v ->
  truthy v = true ->
  version env self = (self, [], Return v).
Proof.
  intros Hmeta Hv Ht. unfold version, bind, get_package_meta, lift.
  rewrite Hmeta. simpl. rewrite Hv, Ht. reflexivity.
Qed.

(** With a version pinned in the manifest, [generate_setup] runs no
    command at all: building the mapping needs no git. *)
Theorem generate_setup_pinned_runs_no_command :
  forall (env : Env) (self : IvyBuildTools) (meta : dict) (v : value)
         (ev : event),
    _package_meta self = VDict meta ->
    dict_get meta "version" = Some v ->
    truthy v = true ->
    In ev (events (generate_setup env self)) ->
    runs_no_command ev.
Proof.
  intros env self meta v ev Hmeta Hv Ht. revert ev.
  assert (Hprint : forall line, runs_no_command (EvPrint line))
    by (intros; exact I).
  unfold generate_setup.
  apply events_at_bind; [apply readonly_name | |intros v1].
  { apply (events_within_required_field runs_no_command); exact Hprint. }
  apply events_at_bind; [apply readonly_version | |intros v2].
  { rewrite (version_pinned_outcome env self meta v Hmeta Hv Ht).
    intros ev []. }
  apply events_at_bind; [apply readonly_description | |intros v3].
  { apply (events_within_required_field runs_no_command); exact Hprint. }
  apply events_at_bind; [apply readonly_long_description | |intros v4].
  { apply (events_within_long_description runs_no_command);
      [exact Hprint | exact I]. }
  apply events_at_bind; [apply readonly_url | |intros v5].
  { apply (events_within_required_field runs_no_command); exact Hprint. }
  apply events_at_bind; [apply readonly_author | |intros v6].
  { apply (events_within_required_field runs_no_command); exact Hprint. }
  apply events_at_bind;
    [apply readonly_static, static_emit | |intros _].
  { apply (events_within_emit runs_no_command). exact I. }
  apply events_at_bind; [apply readonly_python_requires | |intros v7].
  { apply (events_within_python_requires runs_no_command); exact Hprint. }
  apply events_at_bind; [apply readonly_install_requires | |intros v8].
  { apply (events_within_install_requires runs_no_command). }
  intros ev [].
Qed.

Lemma generate_setup_pinned_runs_no_command_witness :
  runs_no_command (EvOpen "README.md").
Proof.
  apply (generate_setup_pinned_runs_no_command
           (Sample.full_env ["ivybuildtools"]) Sample.full_instance
           [("name", VStr "ivybuildtools"); ("version", VStr "1.0.4");
            ("description", VStr "build helpers");
            ("url", VStr "https://example.org/ivybuildtools");
            ("author", VStr "ivy")]
           (VStr "1.0.4") (EvOpen "README.md")).
  - reflexivity.
  - reflexivity.
  - reflexivity.
  - vm_compute. left. reflexivity.
Defined.

(** ** The long description: other failures *)

Lemma long_description_propagates_witness :
  long_description (Sample.pipfile_env [] (Raise IsADirectoryError) [])
    (Sample.of_package [])
  = (Sample.of_package [], [EvOpen "README.md"], Raise IsADirectoryError).
Proof.
  apply (long_description_propagates
           (Sample.pipfile_env [] (Raise IsADirectoryError) [])
           (Sample.of_package []) IsADirectoryError);
    reflexivity.
Defined.

(** ** Version generation: the fields of a template *)

(** For an output of [git describe] of the shape
    [<tag>-<count>-g<sha>], with or without [-dirty], whose tag has no
    hyphen, each field of a template stands for what its name says:
    [tag], [count] and [sha] for the three parts (the sha without its
    [g]), [dirty] for [True] or [False], [branch] for the branch and
    [version] for the whole output. *)
Theorem generate_version_field_values :
  forall (env : Env) (self : IvyBuildTools) (describe_out branch_out : string)
         (tag count sha : string) (dirty : bool),
    check_output env gitver_argv = Return describe_out ->
    check_output env gitbranch_argv = Return branch_out ->
    lacks "-" tag = true -> lacks "-" count = true -> lacks "-" sha = true ->
    Str.strip describe_out
    = tag ++ "-" ++ count ++ "-g" ++ sha ++ (if dirty then "-dirty" else "") ->
    let field name :=
      returned (generate_version env [Format.Field name] self) in
    field "tag" = Return (VStr tag) /\
    field "count" = Return (VStr count) /\
    field "sha" = Return (VStr sha) /\
    field "dirty" = Return (VStr (if dirty then "True" else "False")) /\
    field "branch" = Return (VStr (Str.strip branch_out)) /\
    field "version" = Return (VStr (Str.strip describe_out)).
Proof.
  intros env self describe_out branch_out tag count sha dirty
         Hd Hb Htag Hcount Hsha Hout field.
  assert (Hparts :
    Str.split_on "-" (Str.strip describe_out)
    = tag :: count :: String "g" sha :: (if dirty then ["dirty"] else [])).
  { rewrite Hout. simpl.
    rewrite (split_on_app "-" tag _ Htag), (split_on_app "-" count _ Hcount).
    destruct dirty.
    - change (String "g" (sha ++ "-dirty"))
        with (String "g" sha ++ String "-" "dirty").
      rewrite (split_on_app "-" (String "g" sha)); [reflexivity|].
      simpl. exact Hsha.
    - rewrite string_app_nil_r.
      rewrite (split_on_lacks "-" (String "g" sha)); [reflexivity|].
      simpl. exact Hsha. }
  unfold field.
  destruct dirty.
  - repeat split;
      rewrite (generate_version_four_parts env describe_out branch_out Hd Hb
                 _ self tag count (String "g" sha) "dirty" Hparts);
      unfold formatted, version_kwargs, returned; simpl;
      rewrite ?string_app_nil_r; reflexivity.
  - repeat split;
      rewrite (generate_version_three_parts env describe_out branch_out Hd Hb
                 _ self tag count (String "g" sha) Hparts);
      unfold formatted, version_kwargs, returned; simpl;
      rewrite ?string_app_nil_r; reflexivity.
Qed.

Lemma generate_version_field_values_witness :
  returned (generate_version
              (Sample.git_env (Return "v1.2.3-2-gabcdef1-dirty")
                 (Return "develop"))
              [Format.Field "dirty"] (Sample.of_package []))
  = Return (VStr "True").
Proof.
  apply (generate_version_field_values
           (Sample.git_env (Return "v1.2.3-2-gabcdef1-dirty") (Return "develop"))
           (Sample.of_package []) "v1.2.3-2-gabcdef1-dirty" "develop"
           "v1.2.3" "2" "abcdef1" true);
    reflexivity.
Defined.

(** ** The requirements, entry by entry *)

Lemma requires_loop_returns items :
  forall acc out,
    requires_loop items acc = Return out ->
    exists l,
      out = (acc ++ l)%list /\
      Forall2 (fun kv r => requirement (fst kv) (snd kv) = Return r) items l.
Proof.
  induction items as [|[pkg ver] items IH]; intros acc out;
    cbn [requires_loop].
  - intros H. injection H as <-. exists []. rewrite app_nil_r.
    split; [reflexivity | constructor].
  - destruct (requirement pkg ver) as [r|e] eqn:Hr; [|discriminate].
    intros H. destruct (IH _ _ H) as [l [-> Hf]].
    exists (r :: l). rewrite <- app_assoc. split; [reflexivity|].
    constructor; [exact Hr | exact Hf].
Qed.

(** C2, as amended.  Whatever else the packages section holds: when
    [install_requires] returns, it returns a list of strings with one
    element per entry, in the order of the section, and for every entry
    whose constraint is a string the element at its place is the bare
    name when the constraint contains the character [*] anywhere, and
    otherwise the name followed by the constraint as it is written.  It
    does return when every constraint is a string, an array or a
    table. *)
Theorem install_requires_string_entries :
  forall (self : IvyBuildTools) (items : dict),
    dict_get (_pipfile self) "packages" = Some (VDict items) ->
    (forallb (fun kv => is_container (snd kv)) items = true ->
     exists l, install_requires self = (self, [], Return (VList (map VStr l))))
    /\
    (forall v,
        returned (install_requires self) = Return v ->
        exists l,
          v = VList (map VStr l) /\
          Forall2 (fun kv r =>
                     forall constraint,
                       snd kv = VStr constraint ->
                       r = if Str.contains "*" constraint then fst kv
                           else fst kv ++ constraint)
            items l).
Proof.
  intros self items Hp. split.
  - intros Hall.
    destruct (requires_loop_containers items Hall []) as [l [Hl _]].
    exists l.
    unfold install_requires, _generate_requires, bind, get_pipfile, lift.
    simpl. rewrite Hp. simpl. rewrite Hl. reflexivity.
  - intros v.
    unfold install_requires, _generate_requires, bind, get_pipfile, lift,
      returned.
    simpl. rewrite Hp. simpl.
    destruct (requires_loop items []) as [out|e] eqn:Hloop; simpl;
      [|discriminate].
    intros H. injection H as <-.
    destruct (requires_loop_returns items [] out Hloop) as [l [-> Hf]].
    exists l. split; [reflexivity|].
    clear Hloop Hp. induction Hf as [|[pkg ver] r items' l' Hr Hf IH];
      constructor; [|exact IH].
    simpl. intros constraint ->. simpl in Hr.
    rewrite requirement_of_string in Hr. injection Hr as <-. reflexivity.
Qed.

Lemma install_requires_string_entries_witness :
  (forallb (fun kv => is_container (snd kv))
     [("toml", VStr "*");
      ("requests", VDict [("version", VStr "*");
                          ("extras", VList [VStr "socks"])]);
      ("pipfile", VStr ">=0.0.2")] = true ->
   exists l,
     install_requires
       (Sample.instance
          [("packages",
            VDict [("toml", VStr "*");
                   ("requests", VDict [("version", VStr "*");
                                       ("extras", VList [VStr "socks"])]);
                   ("pipfile", VStr ">=0.0.2")])] [])
     = (Sample.instance
          [("packages",
            VDict [("toml", VStr "*");
                   ("requests", VDict [("version", VStr "*");
                                       ("extras", VList [VStr "socks"])]);
                   ("pipfile", VStr ">=0.0.2")])] [],
        [], Return (VList (map VStr l))))
  /\
  (forall v,
      returned (install_requires
                  (Sample.instance
                     [("packages",
                       VDict [("toml", VStr "*");
                              ("requests",
                               VDict [("version", VStr "*");
                                      ("extras", VList [VStr "socks"])]);
                              ("pipfile", VStr ">=0.0.2")])] []))
      = Return v ->
      exists l,
        v = VList (map VStr l) /\
        Forall2 (fun kv r =>
                   forall constraint,
                     snd kv = VStr constraint ->
                     r = if Str.contains "*" constraint then fst kv
                         else fst kv ++ constraint)
          [("toml", VStr "*");
           ("requests", VDict [("version", VStr "*");
                               ("extras", VList [VStr "socks"])]);
           ("pipfile", VStr ">=0.0.2")] l).
Proof.
  apply (install_requires_string_entries
           (Sample.instance
              [("packages",
                VDict [("toml", VStr "*");
                       ("requests", VDict [("version", VStr "*");
                                           ("extras", VList [VStr "socks"])]);
                       ("pipfile", VStr ">=0.0.2")])] [])).
  reflexivity.
Defined.
